(** * Tote label generator: the column resolver and the label composer

    A shallow embedding of [tote.py].  The program reads a table, resolves
    the columns of the logical fields by alias ([find_column]), and for each
    row composes one sticker page (fields, two seven-slot location strips and
    a QR code) of a multi-page document.

    Modelling choices.
    - Python [str] values are [string]s and text is taken to be ASCII:
      [str.upper] is upper-casing of the letters a-z and [a in b] is the
      substring test [str_in].
    - A table is a [DataFrame]: column labels and rows, each row carrying its
      index label, as [df.iterrows()] yields them.
    - Python exceptions are the [Raise] results of the [result] monad; the
      temporary file lives in an explicit [World].
    - The QR encoder and reportlab's [doc.build] are collaborators outside the
      program: they enter as the oracles [qr_ok] and [build_ok].  The bar made
      by [st.progress] refuses a value outside the range from 0 to 1.
    - reportlab's [Paragraph] parses its text as markup and raises
      [ValueError] on text it cannot parse; which texts it accepts is the
      oracle [para_ok].  [Table] and [Spacer] take their arguments as they
      are.
    - Page geometry (widths, heights, fonts) does not influence the
      document's content and is left out.  Progress and status reporting is
      modelled beside the composer, in the section on reporting. *)

From Stdlib Require Import List String Ascii Bool Arith ZArith NArith Lia.
From Stdlib Require Import DecimalString.
Import ListNotations.
Local Open Scope string_scope.

(** ** Python strings *)

Module PyStr.

(** [c.upper()] on one character: ASCII a-z go to A-Z. *)
Definition upper_char (c : ascii) : ascii :=
  let n := N_of_ascii c in
  if ((97 <=? n) && (n <=? 122))%N then ascii_of_N (n - 32) else c.

(** [s.upper()] *)
Fixpoint upper (s : string) : string :=
  match s with
  | EmptyString => EmptyString
  | String c s' => String (upper_char c) (upper s')
  end.

(** [needle in hay]: [needle] occurs in [hay] as a contiguous substring. *)
Fixpoint str_in (needle hay : string) : bool :=
  if String.prefix needle hay then true
  else match hay with
       | EmptyString => false
       | String _ hay' => str_in needle hay'
       end.

(** [str(z)] for a Python [int]. *)
Definition str_of_int (z : Z) : string :=
  NilZero.string_of_int (Z.to_int z).

(** [bool(s)] for a string: the empty string is falsy. *)
Definition nonempty (s : string) : bool :=
  match s with EmptyString => false | _ => true end.

End PyStr.

(** ** Tables *)

(** A column label.  pandas allows labels that are not strings; the resolver
    tests [isinstance(col, str)]. *)
Inductive label : Type :=
| LStr (s : string)
| LInt (z : Z).

Definition label_eqb (a b : label) : bool :=
  match a, b with
  | LStr s, LStr t => String.eqb s t
  | LInt x, LInt y => Z.eqb x y
  | _, _ => false
  end.

(** A cell: heterogeneous scalar values.  [CObj] stands for any other
    non-null scalar (a finite float, a boolean, a timestamp), carried by the
    text [str()] gives for it. *)
Inductive cell : Type :=
| CStr (s : string)
| CInt (z : Z)
| CObj (text : string)
| CNaN
| CNone.

(** [str(v)] *)
Definition py_str (v : cell) : string :=
  match v with
  | CStr s => s
  | CInt z => PyStr.str_of_int z
  | CObj t => t
  | CNaN => "nan"
  | CNone => "None"
  end.

(** [pd.notna(v)] *)
Definition notna (v : cell) : bool :=
  match v with
  | CNaN | CNone => false
  | _ => true
  end.

(** A row as [iterrows] yields it: a Series indexed by the column labels. *)
Definition Series : Type := list (label * cell).

Record DataFrame : Type := mkDataFrame {
  columns : list label;
  (** the rows, each with its index label *)
  rows : list (Z * list cell)
}.

(** [len(df)] *)
Definition len (df : DataFrame) : Z := Z.of_nat (List.length (rows df)).

(** [df.iterrows()] *)
Definition iterrows (df : DataFrame) : list (Z * Series) :=
  map (fun r => (fst r, combine (columns df) (snd r))) (rows df).

(** The table as [pd.read_csv] and [pd.read_excel] load it in [main]: the
    index is the default 0, 1, ..., n-1. *)
Fixpoint number_from (i : Z) (data : list (list cell)) : list (Z * list cell) :=
  match data with
  | [] => []
  | r :: data' => (i, r) :: number_from (i + 1) data'
  end.

Definition read_table (header : list label) (data : list (list cell)) : DataFrame :=
  {| columns := header; rows := number_from 0 data |}.

(** ** Python exceptions *)

Inductive PyErr : Type :=
| KeyError
| IndexError
| ValueError               (* Paragraph: text that is not well-formed markup *)
| StreamlitAPIException.   (* st.progress: value outside [0, 1] *)

Inductive result (A : Type) : Type :=
| Ok (a : A)
| Raise (e : PyErr).

Arguments Ok {A} a.
Arguments Raise {A} e.

Definition bind {A B : Type} (m : result A) (k : A -> result B) : result B :=
  match m with
  | Ok a => k a
  | Raise e => Raise e
  end.

Notation "x <- m ;; k" := (bind m (fun x => k))
  (at level 61, m at next level, right associativity).

(** [col in row] *)
Definition series_has (row : Series) (col : string) : bool :=
  existsb (fun kv => label_eqb (fst kv) (LStr col)) row.

(** [row[col]]: raises [KeyError] when the label is absent.  The loaders
    rename repeated column names, so a label occurs once; the first
    occurrence is taken. *)
Fixpoint getitem (row : Series) (col : string) : result cell :=
  match row with
  | [] => Raise KeyError
  | (l, v) :: row' => if label_eqb l (LStr col) then Ok v else getitem row' col
  end.

(** [lst[i] = v]: raises [IndexError] out of range. *)
Fixpoint setitem (lst : list string) (i : nat) (v : string) : result (list string) :=
  match lst, i with
  | [], _ => Raise IndexError
  | _ :: tl, O => Ok (v :: tl)
  | hd :: tl, S i' => tl' <- setitem tl i' v ;; Ok (hd :: tl')
  end.

(** ** Column resolver *)

(** [isinstance(col, str) and keyword.upper() in col.upper()] *)
Definition col_matches (keyword : string) (col : label) : bool :=
  match col with
  | LStr s => PyStr.str_in (PyStr.upper keyword) (PyStr.upper s)
  | LInt _ => false
  end.

(** The inner loop of [find_column]: the first column matching [keyword].
    Only a string label can match, and it is returned as it is. *)
Fixpoint first_match (keyword : string) (cols : list label) : option string :=
  match cols with
  | [] => None
  | LStr s :: cols' =>
      if col_matches keyword (LStr s) then Some s
      else first_match keyword cols'
  | LInt _ :: cols' => first_match keyword cols'
  end.

(** [find_column(df, keywords)], on [cols = df.columns.tolist()]. *)
Fixpoint find_column (cols : list label) (keywords : list string) : option string :=
  match keywords with
  | [] => None
  | keyword :: keywords' =>
      match first_match keyword cols with
      | Some col => Some col
      | None => find_column cols keywords'
      end
  end.

(** The alias lists of [generate_sticker_labels]. *)
Definition PART_NO_KEYWORDS : list string :=
  ["PART NO"; "PARTNO"; "PART"; "PART_NO"; "PART#"].
Definition DESC_KEYWORDS : list string :=
  ["PART DESC"; "DESC"; "DESCRIPTION"; "NAME"; "PRODUCT_NAME"].
Definition QTY_BIN_KEYWORDS : list string :=
  ["QTY/BIN"; "QTY_BIN"; "QTYBIN"; "QTY"; "QUANTITY"].

(** [line_location_columns]: a dict with the seven fixed keys below. *)
Record LineCols : Type := mkLineCols {
  model : option string;
  station_no : option string;
  rack : option string;
  rack_no_1st : option string;
  rack_no_2nd : option string;
  level : option string;
  cell_col : option string   (* key 'cell' *)
}.

(** [store_location_columns]: a dict with the seven fixed keys below. *)
Record StoreCols : Type := mkStoreCols {
  abb_zone : option string;
  abb_location : option string;
  abb_floor : option string;
  abb_rack_no : option string;
  abb_level_in_rack : option string;
  abb_cell : option string;
  abb_no : option string
}.

Definition find_line_location_columns (cols : list label) : LineCols :=
  {| model := find_column cols ["MODEL"; "BUS MODEL"; "BUS_MODEL"; "BUSMODEL"; "BUS"];
     station_no := find_column cols ["STATION NO"; "STATION_NO"; "STATIONNO"; "STATION"];
     rack := find_column cols ["RACK"];
     rack_no_1st := find_column cols ["RACK NO. (1ST DIGIT)"; "RACK NO (1ST DIGIT)"; "RACK_NO_1ST"; "RACK NO 1ST"];
     rack_no_2nd := find_column cols ["RACK NO. (2ND DIGIT)"; "RACK NO (2ND DIGIT)"; "RACK_NO_2ND"; "RACK NO 2ND"];
     level := find_column cols ["LEVEL"];
     cell_col := find_column cols ["CELL"] |}.

Definition find_store_location_columns (cols : list label) : StoreCols :=
  {| abb_zone := find_column cols ["ABB FOR ZONE"; "ABB_FOR_ZONE"; "ABB ZONE"; "ABB_ZONE"; "ABBZONE"; "ZONE"];
     abb_location := find_column cols ["ABB FOR LOCATION"; "ABB_FOR_LOCATION"; "ABB LOCATION"; "ABB_LOCATION"; "ABBLOCATION"];
     abb_floor := find_column cols ["ABB FOR FLOOR"; "ABB_FOR_FLOOR"; "ABB FLOOR"; "ABB_FLOOR"; "ABBFLOOR"; "FLOOR"];
     abb_rack_no := find_column cols ["ABB FOR RACK NO"; "ABB_FOR_RACK_NO"; "ABB RACK NO"; "ABB_RACK_NO"; "ABBRACKNO"; "ABB RACK"];
     abb_level_in_rack := find_column cols ["ABB FOR LEVEL IN RACK"; "ABB_FOR_LEVEL_IN_RACK"; "ABB LEVEL IN RACK"; "ABB_LEVEL_IN_RACK"; "ABBLEVELINRACK"; "ABB LEVEL"];
     abb_cell := find_column cols ["ABB FOR CELL"; "ABB_FOR_CELL"; "ABB CELL"; "ABB_CELL"; "ABBCELL"];
     abb_no := find_column cols ["ABB FOR NO"; "ABB_FOR_NO"; "ABB NO"; "ABB_NO"; "ABBNO"; "ABB NUMBER"] |}.

(** ** Field extraction *)

(** The guard [col and col in row]: [None] and the empty string are falsy. *)
Definition usable (row : Series) (col : option string) : bool :=
  match col with
  | Some c => PyStr.nonempty c && series_has row c
  | None => false
  end.

(** [row[col]] for a resolved column. *)
Definition getcol (row : Series) (col : option string) : result cell :=
  match col with
  | Some c => getitem row c
  | None => Raise KeyError
  end.

(** One statement of the extractors:
    [if col and col in row:
         components[i] = str(row[col]) if pd.notna(row[col]) else ''] *)
Definition assign_component (components : list string) (i : nat)
    (row : Series) (col : option string) : result (list string) :=
  if usable row col then
    v <- getcol row col ;;
    if notna v
    then (w <- getcol row col ;; setitem components i (py_str w))
    else setitem components i EmptyString
  else Ok components.

Definition extract_line_location_components (row : Series) (columns : LineCols)
    : result (list string) :=
  let components := repeat EmptyString 7 in
  components <- assign_component components 0 row (model columns) ;;
  components <- assign_component components 1 row (station_no columns) ;;
  components <- assign_component components 2 row (rack columns) ;;
  components <- assign_component components 3 row (rack_no_1st columns) ;;
  components <- assign_component components 4 row (rack_no_2nd columns) ;;
  components <- assign_component components 5 row (level columns) ;;
  components <- assign_component components 6 row (cell_col columns) ;;
  Ok components.

Definition extract_store_location_components (row : Series) (columns : StoreCols)
    : result (list string) :=
  let components := repeat EmptyString 7 in
  components <- assign_component components 0 row (abb_zone columns) ;;
  components <- assign_component components 1 row (abb_location columns) ;;
  components <- assign_component components 2 row (abb_floor columns) ;;
  components <- assign_component components 3 row (abb_rack_no columns) ;;
  components <- assign_component components 4 row (abb_level_in_rack columns) ;;
  components <- assign_component components 5 row (abb_cell columns) ;;
  components <- assign_component components 6 row (abb_no columns) ;;
  Ok components.

(** [str(row[col]) if col and col in row else '']: part number, description. *)
Definition basic_field (row : Series) (col : option string) : result string :=
  if usable row col then (v <- getcol row col ;; Ok (py_str v)) else Ok EmptyString.

(** [str(row[col]) if col and col in row and pd.notna(row[col]) else '']:
    quantity. *)
Definition basic_field_notna (row : Series) (col : option string) : result string :=
  if usable row col then
    v <- getcol row col ;;
    if notna v then (w <- getcol row col ;; Ok (py_str w)) else Ok EmptyString
  else Ok EmptyString.

(** ** Sticker pages *)

(** The newline character of the f-strings. *)
Definition nl : string := String "010"%char EmptyString.

(** The QR payload of a row:
    [f"Part No: {part_no}\nDescription: {desc}\nQTY/BIN: {qty_bin}\n"],
    then the two location lines. *)
Definition qr_payload (part_no desc qty_bin : string)
    (line_location_parts store_location_parts : list string) : string :=
  let qr_data :=
    "Part No: " ++ part_no ++ nl ++ "Description: " ++ desc ++ nl
      ++ "QTY/BIN: " ++ qty_bin ++ nl in
  let qr_data :=
    qr_data ++ ("Line Location: " ++ String.concat " | " line_location_parts ++ nl) in
  qr_data ++ ("Store Location: " ++ String.concat " | " store_location_parts).

(** [desc[:30] + "..." if len(desc) > 30 else desc] *)
Definition desc_text (desc : string) : string :=
  if (30 <? String.length desc)%nat then String.substring 0 30 desc ++ "..." else desc.

(** The values derived from one row (lines 239-253 of the loop body). *)
Record StickerRecord : Type := mkStickerRecord {
  part_no : string;
  desc : string;
  qty_bin : string;
  line_location_parts : list string;
  store_location_parts : list string;
  qr_data : string
}.

Definition sticker_record (part_no_col desc_col qty_bin_col : option string)
    (line_location_columns : LineCols) (store_location_columns : StoreCols)
    (row : Series) : result StickerRecord :=
  part_no <- basic_field row part_no_col ;;
  desc <- basic_field row desc_col ;;
  qty_bin <- basic_field_notna row qty_bin_col ;;
  line_location_parts <- extract_line_location_components row line_location_columns ;;
  store_location_parts <- extract_store_location_components row store_location_columns ;;
  let qr_data := qr_payload part_no desc qty_bin line_location_parts store_location_parts in
  Ok {| part_no := part_no; desc := desc; qty_bin := qty_bin;
        line_location_parts := line_location_parts;
        store_location_parts := store_location_parts;
        qr_data := qr_data |}.

(** The cell beside the text block. *)
Inductive QRCell : Type :=
| QRImage (data : string)   (* the encoded payload, 1.5cm x 1.5cm *)
| QRPlaceholder.            (* the paragraph "QR" *)

(** The content of [final_table]. *)
Record Sticker : Type := mkSticker {
  part_no_par : string;         (* Paragraph(part_no, bold_style) *)
  desc_par : string;            (* Paragraph(desc truncated, desc_style) *)
  qty_par : string;             (* Paragraph(str(qty_bin), qty_style) *)
  store_loc_strip : list string;
  line_loc_strip : list string;
  qr_cell : QRCell
}.

Inductive Flowable : Type :=
| Spacer
| FinalTable (s : Sticker)
| PageBreak.

(** The temporary files: a path and what was written to it ([None] while
    nothing has been written). *)
Record World : Type := mkWorld {
  tmp_files : list (nat * option (list Flowable))
}.

(** The name [tempfile.NamedTemporaryFile] picks: one not in use. *)
Definition fresh_path (w : World) : nat :=
  S (fold_right Nat.max 0 (map fst (tmp_files w))).

Definition create_file (w : World) (p : nat) : World :=
  {| tmp_files := (p, None) :: tmp_files w |}.

Fixpoint write_entry (fs : list (nat * option (list Flowable))) (p : nat)
    (story : list Flowable) : list (nat * option (list Flowable)) :=
  match fs with
  | [] => []
  | (q, c) :: fs' =>
      if Nat.eqb q p then (q, Some story) :: fs'
      else (q, c) :: write_entry fs' p story
  end.

Definition write_file (w : World) (p : nat) (story : list Flowable) : World :=
  {| tmp_files := write_entry (tmp_files w) p story |}.

(** [open(p, 'rb').read()] *)
Fixpoint read_entry (fs : list (nat * option (list Flowable))) (p : nat)
    : option (option (list Flowable)) :=
  match fs with
  | [] => None
  | (q, c) :: fs' => if Nat.eqb q p then Some c else read_entry fs' p
  end.

(** [os.unlink(p)] *)
Definition unlink (w : World) (p : nat) : World :=
  {| tmp_files := filter (fun f => negb (Nat.eqb (fst f) p)) (tmp_files w) |}.

Definition file_exists (w : World) (p : nat) : bool :=
  existsb (fun f => Nat.eqb (fst f) p) (tmp_files w).

(** What the button handler of [main] shows. *)
Inductive Outcome : Type :=
| Download (pdf_data : option (list Flowable))  (* st.download_button *)
| Failed                                        (* "Failed to generate tote labels" *)
| ErrorReading.                                 (* the outer [except Exception] *)

Section Composer.

(** Whether [Paragraph] accepts a text. *)
Variable para_ok : string -> bool.

(** Whether the QR library encodes a payload without raising. *)
Variable qr_ok : string -> bool.

(** Whether [doc.build] renders a story without raising. *)
Variable build_ok : list Flowable -> bool.

(** [generate_qr_code(data_string)]: any exception is caught and [None] is
    returned. *)
Definition generate_qr_code (data_string : string) : option string :=
  if qr_ok data_string then Some data_string else None.

(** [Paragraph(text, style)] *)
Definition paragraph (text : string) : result string :=
  if para_ok text then Ok text else Raise ValueError.

(** The body of the loop over the rows, up to [all_elements.extend]: the
    values of the row, the QR code, then the three paragraphs of the main
    table and the tables around them. *)
Definition sticker_elements (part_no_col desc_col qty_bin_col : option string)
    (line_location_columns : LineCols) (store_location_columns : StoreCols)
    (row : Series) : result (list Flowable) :=
  r <- sticker_record part_no_col desc_col qty_bin_col
         line_location_columns store_location_columns row ;;
  let qr_image := generate_qr_code (qr_data r) in
  part_no_par <- paragraph (part_no r) ;;
  desc_par <- paragraph (desc_text (desc r)) ;;
  qty_par <- paragraph (qty_bin r) ;;
  let qr_table :=
    match qr_image with
    | Some img => QRImage img
    | None => QRPlaceholder
    end in
  let final_table :=
    FinalTable {| part_no_par := part_no_par;
                  desc_par := desc_par;
                  qty_par := qty_par;
                  store_loc_strip := store_location_parts r;
                  line_loc_strip := line_location_parts r;
                  qr_cell := qr_table |} in
  Ok [Spacer; final_table].

(** The loop [for index, row in df.iterrows()], threading [all_elements]. *)
Fixpoint process_rows (part_no_col desc_col qty_bin_col : option string)
    (line_location_columns : LineCols) (store_location_columns : StoreCols)
    (len_df : Z) (todo : list (Z * Series)) (all_elements : list Flowable)
    : result (list Flowable) :=
  match todo with
  | [] => Ok all_elements
  | (index, row) :: todo' =>
      elements <- sticker_elements part_no_col desc_col qty_bin_col
                    line_location_columns store_location_columns row ;;
      let all_elements := (all_elements ++ elements)%list in
      let all_elements :=
        if (index <? len_df - 1)%Z then (all_elements ++ [PageBreak])%list
        else all_elements in
      process_rows part_no_col desc_col qty_bin_col
        line_location_columns store_location_columns len_df todo' all_elements
  end.

(** [generate_sticker_labels] without the temporary file and [doc.build]:
    the story handed to the document. *)
Definition build_story (df : DataFrame) : result (list Flowable) :=
  let part_no_col := find_column (columns df) PART_NO_KEYWORDS in
  let desc_col := find_column (columns df) DESC_KEYWORDS in
  let qty_bin_col := find_column (columns df) QTY_BIN_KEYWORDS in
  let line_location_columns := find_line_location_columns (columns df) in
  let store_location_columns := find_store_location_columns (columns df) in
  process_rows part_no_col desc_col qty_bin_col
    line_location_columns store_location_columns (len df) (iterrows df) [].

(** [generate_sticker_labels(df)]: the path of the document, or [None] when
    [doc.build] raised.  An exception of the loop is not caught here: it
    leaves the function after the temporary file was made. *)
Definition generate_sticker_labels (df : DataFrame) (w : World)
    : result (option nat) * World :=
  let temp_path := fresh_path w in
  let w := create_file w temp_path in
  match build_story df with
  | Raise e => (Raise e, w)
  | Ok all_elements =>
      if build_ok all_elements
      then (Ok (Some temp_path), write_file w temp_path all_elements)
      else (Ok None, w)
  end.

(** The handler of the generate button in [main] (lines 483-507); the outer
    [except Exception] catches what the loop raises. *)
Definition on_generate (df : DataFrame) (w : World) : Outcome * World :=
  match generate_sticker_labels df w with
  | (Ok (Some pdf_path), w) =>
      match read_entry (tmp_files w) pdf_path with
      | Some pdf_data =>
          let w := unlink w pdf_path in
          (Download pdf_data, w)
      | None => (ErrorReading, w)
      end
  | (Ok None, w) => (Failed, w)
  | (Raise _, w) => (ErrorReading, w)
  end.

End Composer.

(** ** Notions the properties are stated with *)

(** [col] contains [alias] as a substring, up to the case of letters. *)
Definition contains_ci (alias col : string) : Prop :=
  exists pre mid post,
    col = pre ++ mid ++ post /\ PyStr.upper mid = PyStr.upper alias.

(** What a location slot holds, given the column its field resolved to. *)
Definition slot_ok (row : Series) (col : option string) (entry : string) : Prop :=
  (col = None -> entry = EmptyString) /\
  (col = Some EmptyString -> entry = EmptyString) /\
  (forall c, col = Some c -> series_has row c = false -> entry = EmptyString) /\
  (forall c v, col = Some c -> getitem row c = Ok v -> notna v = false ->
               entry = EmptyString) /\
  (forall c v, col = Some c -> c <> EmptyString -> getitem row c = Ok v ->
               notna v = true -> entry = py_str v).

(** The pages of a story joined by one page break between neighbours. *)
Fixpoint join_pages (pages : list (list Flowable)) : list Flowable :=
  match pages with
  | [] => []
  | [p] => p
  | p :: pages' => (p ++ PageBreak :: join_pages pages')%list
  end.

(** How the document template breaks a story into pages: a [PageBreak] ends
    the current page (every sticker is smaller than a page). *)
Fixpoint paginate_from (cur : list Flowable) (story : list Flowable)
    : list (list Flowable) :=
  match story with
  | [] => match cur with [] => [] | _ => [rev cur] end
  | PageBreak :: story' => rev cur :: paginate_from [] story'
  | f :: story' => paginate_from (f :: cur) story'
  end.

Definition paginate (story : list Flowable) : list (list Flowable) :=
  paginate_from [] story.

Definition is_page_break (f : Flowable) : bool :=
  match f with PageBreak => true | _ => false end.

(** The stickers of a story, in order. *)
Fixpoint stickers_of (story : list Flowable) : list Sticker :=
  match story with
  | [] => []
  | FinalTable s :: story' => s :: stickers_of story'
  | _ :: story' => stickers_of story'
  end.

(** ** The end-to-end scenario *)

(** The header of the scenario; the columns between [ABB FOR ZONE] and
    [ABB FOR NO] are the store-location columns the application documents. *)
Definition scenario_header : list label :=
  map LStr
    ["PART NO"; "DESC"; "QTY"; "MODEL"; "STATION NO"; "RACK"; "LEVEL"; "CELL";
     "ABB FOR ZONE"; "ABB FOR LOCATION"; "ABB FOR FLOOR"; "ABB FOR RACK NO";
     "ABB FOR LEVEL IN RACK"; "ABB FOR CELL"; "ABB FOR NO"].

(** An empty value of the scenario: the empty text, or the null a loader
    makes of a blank field. *)
Definition blank (c : cell) : bool :=
  match c with
  | CStr s => negb (PyStr.nonempty s)
  | CNaN | CNone => true
  | _ => false
  end.

(** The first row: the ten listed values, then the values left open. *)
Definition scenario_row1 (b1 b2 b3 : cell) (rest : list cell) : list cell :=
  ([CStr "A100"; CStr "Bolt M6"; CInt 50; CStr "X1"; CStr "S3"; CStr "R2";
    b1; CStr "L4"; b2; b3] ++ rest)%list.

Definition scenario_table (b1 b2 b3 : cell) (rest row2 : list cell) : DataFrame :=
  read_table scenario_header [scenario_row1 b1 b2 b3 rest; row2].

(** The Line Location strip of the first page of a story. *)
Definition first_line_strip (story : result (list Flowable)) : option (list string) :=
  match story with
  | Ok story =>
      match stickers_of story with
      | s :: _ => Some (line_loc_strip s)
      | [] => None
      end
  | Raise _ => None
  end.

(** One concrete instance of the scenario. *)
Definition scenario_example : DataFrame :=
  scenario_table (CStr EmptyString) (CStr EmptyString) (CStr EmptyString)
    [CStr EmptyString; CStr EmptyString; CStr EmptyString; CStr EmptyString;
     CStr EmptyString]
    [CStr "A200"; CStr "Nut M6"; CInt 20; CStr "X2"; CStr "S4"; CStr "R3";
     CStr "2"; CStr "L5"; CStr "Z1"; CStr "B"; CStr "1"; CStr "7"; CStr "3";
     CStr "C2"; CInt 9].

Definition always (b : bool) : string -> bool := fun _ => b.

Definition long_desc : string := "Hexagon socket head cap screw M6x20".

(** A table without a quantity column. *)
Definition no_qty_table : DataFrame :=
  read_table [LStr "PART NO"; LStr "DESC"; LStr "MODEL"]
    [[CStr "A100"; CStr "Bolt M6"; CStr "X1"];
     [CStr "A200"; CStr "Nut M6"; CStr "X2"]].


(** A table whose index labels are not the default ones, as a filtered
    DataFrame has them. *)
Definition relabelled_table : DataFrame :=
  {| columns := [LStr "PART NO"];
     rows := [(5%Z, [CStr "A100"]); (6%Z, [CStr "A200"])] |}.

(** The text a guarded extraction puts in a slot. *)
Definition slot_text (row : Series) (col : option string) : string :=
  if usable row col then
    match getcol row col with
    | Ok v => if notna v then py_str v else EmptyString
    | Raise _ => EmptyString
    end
  else EmptyString.

(** The columns of the seven slots, in slot order. *)
Definition line_slots (lc : LineCols) : list (option string) :=
  [model lc; station_no lc; rack lc; rack_no_1st lc; rack_no_2nd lc;
   level lc; cell_col lc].

Definition store_slots (sc : StoreCols) : list (option string) :=
  [abb_zone sc; abb_location sc; abb_floor sc; abb_rack_no sc;
   abb_level_in_rack sc; abb_cell sc; abb_no sc].

(** The text an unguarded extraction (part number, description) yields. *)
Definition basic_text (row : Series) (col : option string) : string :=
  if usable row col then
    match getcol row col with
    | Ok v => py_str v
    | Raise _ => EmptyString
    end
  else EmptyString.

(** Closed form of [sticker_record]. *)
Definition record_of (part_no_col desc_col qty_bin_col : option string)
    (lc : LineCols) (sc : StoreCols) (row : Series) : StickerRecord :=
  let line := map (slot_text row) (line_slots lc) in
  let store := map (slot_text row) (store_slots sc) in
  {| part_no := basic_text row part_no_col;
     desc := basic_text row desc_col;
     qty_bin := slot_text row qty_bin_col;
     line_location_parts := line;
     store_location_parts := store;
     qr_data := qr_payload (basic_text row part_no_col) (basic_text row desc_col)
                  (slot_text row qty_bin_col) line store |}.

(** The sticker laid out for a record. *)
Definition sticker_of (qr_ok : string -> bool) (r : StickerRecord) : Sticker :=
  {| part_no_par := part_no r;
     desc_par := desc_text (desc r);
     qty_par := qty_bin r;
     store_loc_strip := store_location_parts r;
     line_loc_strip := line_location_parts r;
     qr_cell := if qr_ok (qr_data r) then QRImage (qr_data r) else QRPlaceholder |}.

(** The record and the page the composer makes for a row of a table with
    the given header. *)
Definition row_record (header : list label) (row : Series) : result StickerRecord :=
  sticker_record (find_column header PART_NO_KEYWORDS)
    (find_column header DESC_KEYWORDS) (find_column header QTY_BIN_KEYWORDS)
    (find_line_location_columns header) (find_store_location_columns header) row.

Definition row_page (para_ok qr_ok : string -> bool) (header : list label)
    (row : Series) : result (list Flowable) :=
  sticker_elements para_ok qr_ok (find_column header PART_NO_KEYWORDS)
    (find_column header DESC_KEYWORDS) (find_column header QTY_BIN_KEYWORDS)
    (find_line_location_columns header) (find_store_location_columns header) row.

(** Whether [Paragraph] accepts the three texts of a record. *)
Definition texts_ok (para_ok : string -> bool) (r : StickerRecord) : bool :=
  para_ok (part_no r) && para_ok (desc_text (desc r)) && para_ok (qty_bin r).

(** Whether it accepts the texts of a row, and of every row of a table. *)
Definition row_texts_ok (para_ok : string -> bool) (header : list label)
    (row : Series) : bool :=
  texts_ok para_ok
    (record_of (find_column header PART_NO_KEYWORDS)
       (find_column header DESC_KEYWORDS) (find_column header QTY_BIN_KEYWORDS)
       (find_line_location_columns header) (find_store_location_columns header)
       row).

Definition table_texts_ok (para_ok : string -> bool) (df : DataFrame) : bool :=
  forallb (fun ir => row_texts_ok para_ok (columns df) (snd ir)) (iterrows df).

(** Closed form of [row_page], for a row whose texts are accepted. *)
Definition page_of (qr_ok : string -> bool) (header : list label) (row : Series)
    : list Flowable :=
  [Spacer;
   FinalTable (sticker_of qr_ok
     (record_of (find_column header PART_NO_KEYWORDS)
        (find_column header DESC_KEYWORDS) (find_column header QTY_BIN_KEYWORDS)
        (find_line_location_columns header) (find_store_location_columns header)
        row))].

(** What one iteration of the loop appends to [all_elements]. *)
Definition row_block (qr_ok : string -> bool) (header : list label) (len_df : Z)
    (ir : Z * Series) : list Flowable :=
  (page_of qr_ok header (snd ir)
   ++ if (fst ir <? len_df - 1)%Z then [PageBreak] else [])%list.

(** ** The rest of [generate_sticker_labels]: progress and status reporting *)

(** What the function sends to its collaborators and to the page. *)
Inductive Event : Type :=
| EvProgress (num den : Z)     (* progress_bar.progress(num / den) *)
| EvWrite (text : string)      (* status_container.write(text) *)
| EvSuccess (text : string)    (* status_container.success(text) *)
| EvBuildError                 (* status_container.error("Error building PDF: ...") *)
| EvQRError.                   (* st.error("Error generating QR code: ...") *)

(** [f"{col}"] for a resolved column or [None]. *)
Definition fmt_col (col : option string) : string :=
  match col with
  | Some c => c
  | None => "None"
  end.

(** The keys of the two dicts, in insertion order, with their values. *)
Definition line_items (lc : LineCols) : list (string * option string) :=
  [("model", model lc); ("station_no", station_no lc); ("rack", rack lc);
   ("rack_no_1st", rack_no_1st lc); ("rack_no_2nd", rack_no_2nd lc);
   ("level", level lc); ("cell", cell_col lc)].

Definition store_items (sc : StoreCols) : list (string * option string) :=
  [("abb_zone", abb_zone sc); ("abb_location", abb_location sc);
   ("abb_floor", abb_floor sc); ("abb_rack_no", abb_rack_no sc);
   ("abb_level_in_rack", abb_level_in_rack sc); ("abb_cell", abb_cell sc);
   ("abb_no", abb_no sc)].

(** [status_container.write(f"- {key}: {col}")] for every item. *)
Definition write_items (items : list (string * option string)) : list Event :=
  map (fun kc => EvWrite ("- " ++ fst kc ++ ": " ++ fmt_col (snd kc))) items.

Section Reporting.

Variable para_ok : string -> bool.
Variable qr_ok : string -> bool.
Variable build_ok : list Flowable -> bool.

(** Whether the optional collaborators were passed: the bar made by
    [st.progress] and the container made by [st.empty]. *)
Variable progress_bar : bool.
Variable status_container : bool.

(** Lines 203-213: the columns in use. *)
Definition report_columns (part_no_col desc_col qty_bin_col : option string)
    (line_location_columns : LineCols) (store_location_columns : StoreCols)
    : list Event :=
  if status_container then
    ([EvWrite "**Using columns:**";
      EvWrite ("- Part No: " ++ fmt_col part_no_col);
      EvWrite ("- Description: " ++ fmt_col desc_col);
      EvWrite ("- Qty/Bin: " ++ fmt_col qty_bin_col);
      EvWrite "**Line Location columns:**"]
     ++ write_items (line_items line_location_columns)
     ++ [EvWrite "**Store Location (ABB) columns:**"]
     ++ write_items (store_items store_location_columns))%list
  else [].

(** [progress_bar.progress(num / den)], with [den] positive: the bar raises
    when the quotient is below 0 or above 1. *)
Definition progress (num den : Z) : result Event :=
  if ((0 <=? num) && (num <=? den))%Z then Ok (EvProgress num den)
  else Raise StreamlitAPIException.

(** [generate_qr_code] with its error message. *)
Definition generate_qr_code_log (data_string : string) : option string * list Event :=
  if qr_ok data_string then (Some data_string, []) else (None, [EvQRError]).

(** The loop body with what it reports; the QR error is shown before the
    paragraphs are made. *)
Definition sticker_elements_log (part_no_col desc_col qty_bin_col : option string)
    (line_location_columns : LineCols) (store_location_columns : StoreCols)
    (row : Series) : result (list Flowable) * list Event :=
  match sticker_record part_no_col desc_col qty_bin_col
          line_location_columns store_location_columns row with
  | Raise e => (Raise e, [])
  | Ok r =>
      let (qr_image, log) := generate_qr_code_log (qr_data r) in
      (part_no_par <- paragraph para_ok (part_no r) ;;
       desc_par <- paragraph para_ok (desc_text (desc r)) ;;
       qty_par <- paragraph para_ok (qty_bin r) ;;
       let qr_table :=
         match qr_image with
         | Some img => QRImage img
         | None => QRPlaceholder
         end in
       let final_table :=
         FinalTable {| part_no_par := part_no_par;
                       desc_par := desc_par;
                       qty_par := qty_par;
                       store_loc_strip := store_location_parts r;
                       line_loc_strip := line_location_parts r;
                       qr_cell := qr_table |} in
       Ok [Spacer; final_table],
       log)
  end.

(** The loop, threading [all_elements] and the events so far. *)
Fixpoint process_rows_log (part_no_col desc_col qty_bin_col : option string)
    (line_location_columns : LineCols) (store_location_columns : StoreCols)
    (total_rows : Z) (todo : list (Z * Series)) (all_elements : list Flowable)
    (log : list Event) : result (list Flowable) * list Event :=
  match todo with
  | [] => (Ok all_elements, log)
  | (index, row) :: todo' =>
      let shown :=
        if progress_bar
        then (ev <- progress (index + 1) total_rows ;; Ok [ev])
        else Ok [] in
      match shown with
      | Raise e => (Raise e, log)
      | Ok evs =>
          let log := (log ++ evs)%list in
          let log :=
            if status_container
            then (log ++ [EvWrite ("Creating sticker "
                                     ++ PyStr.str_of_int (index + 1)
                                     ++ " of " ++ PyStr.str_of_int total_rows)])%list
            else log in
          match sticker_elements_log part_no_col desc_col qty_bin_col
                  line_location_columns store_location_columns row with
          | (Raise e, qr_log) => (Raise e, (log ++ qr_log)%list)
          | (Ok elements, qr_log) =>
              let log := (log ++ qr_log)%list in
              let all_elements := (all_elements ++ elements)%list in
              let all_elements :=
                if (index <? total_rows - 1)%Z
                then (all_elements ++ [PageBreak])%list
                else all_elements in
              process_rows_log part_no_col desc_col qty_bin_col
                line_location_columns store_location_columns total_rows todo'
                all_elements log
          end
      end
  end.

(** [generate_sticker_labels(df, progress_bar, status_container)] with
    everything it reports. *)
Definition generate_sticker_labels_log (df : DataFrame) (w : World)
    : result (option nat) * World * list Event :=
  let part_no_col := find_column (columns df) PART_NO_KEYWORDS in
  let desc_col := find_column (columns df) DESC_KEYWORDS in
  let qty_bin_col := find_column (columns df) QTY_BIN_KEYWORDS in
  let line_location_columns := find_line_location_columns (columns df) in
  let store_location_columns := find_store_location_columns (columns df) in
  let log := report_columns part_no_col desc_col qty_bin_col
               line_location_columns store_location_columns in
  let temp_path := fresh_path w in
  let w := create_file w temp_path in
  match process_rows_log part_no_col desc_col qty_bin_col
          line_location_columns store_location_columns (len df) (iterrows df)
          [] log with
  | (Raise e, log) => (Raise e, w, log)
  | (Ok all_elements, log) =>
      if build_ok all_elements
      then
        let w := write_file w temp_path all_elements in
        let log :=
          if status_container
          then (log ++ [EvSuccess "PDF generated successfully!"])%list
          else log in
        (Ok (Some temp_path), w, log)
      else
        let log :=
          if status_container then (log ++ [EvBuildError])%list else log in
        (Ok None, w, log)
  end.

End Reporting.


Definition is_qr_error (e : Event) : bool :=
  match e with EvQRError => true | _ => false end.

(** The rows whose payload the encoder rejects. *)
Definition qr_rejected (qr_ok : string -> bool) (df : DataFrame) : list (Z * Series) :=
  filter (fun ir =>
            match row_record (columns df) (snd ir) with
            | Ok r => negb (qr_ok (qr_data r))
            | Raise _ => false
            end) (iterrows df).


(** ** The upload handler of [main] *)

(** [c.lower()] on one character: ASCII A-Z go to a-z. *)
Definition lower_char (c : ascii) : ascii :=
  let n := N_of_ascii c in
  if ((65 <=? n) && (n <=? 90))%N then ascii_of_N (n + 32) else c.

(** [s.lower()] *)
Fixpoint str_lower (s : string) : string :=
  match s with
  | EmptyString => EmptyString
  | String c s' => String (lower_char c) (str_lower s')
  end.

(** [s.endswith(suffix)] *)
Fixpoint str_endswith (s suffix : string) : bool :=
  if String.eqb s suffix then true
  else match s with
       | EmptyString => false
       | String _ s' => str_endswith s' suffix
       end.

(** [s.split(sep)] for a one-character separator. *)
Fixpoint str_split (sep : ascii) (s : string) : list string :=
  match s with
  | EmptyString => [EmptyString]
  | String c s' =>
      if Ascii.eqb c sep then EmptyString :: str_split sep s'
      else match str_split sep s' with
           | part :: parts => String c part :: parts
           | [] => [String c EmptyString]
           end
  end.

Inductive Loader : Type :=
| ReadCsv      (* pd.read_csv *)
| ReadExcel.   (* pd.read_excel *)

(** Lines 463-466: the loader is chosen by the file name. *)
Definition choose_loader (name : string) : Loader :=
  if str_endswith (str_lower name) ".csv" then ReadCsv else ReadExcel.

(** Line 497: [f"{uploaded_file.name.split('.')[0]}_tote_labels.pdf"] *)
Definition download_file_name (name : string) : result string :=
  match str_split "."%char name with
  | part :: _ => Ok (part ++ "_tote_labels.pdf")
  | [] => Raise IndexError
  end.

(** The items of [df.columns.tolist()] as [', '.join] needs them: it raises
    [TypeError] for a label that is not a string ([None] here). *)
Fixpoint str_items (cols : list label) : option (list string) :=
  match cols with
  | [] => Some []
  | LStr s :: cols' =>
      match str_items cols' with
      | Some names => Some (s :: names)
      | None => None
      end
  | LInt _ :: _ => None
  end.

(** Line 470: [f"**Columns:** {', '.join(df.columns.tolist())}"] *)
Definition columns_line (df : DataFrame) : option string :=
  match str_items (columns df) with
  | Some names => Some ("**Columns:** " ++ String.concat ", " names)
  | None => None
  end.

(** What the page shows once the handler is through. *)
Inductive Generated : Type :=
| Offered (pdf_data : option (list Flowable)) (file_name : string)
| NotGenerated.    (* "Failed to generate tote labels" *)

Inductive Shown : Type :=
| ShownError       (* "Error reading file: ..." *)
| ShownPreview (total_rows columns : string) (generated : option Generated).

Section Main.

Variable para_ok : string -> bool.
Variable qr_ok : string -> bool.
Variable build_ok : list Flowable -> bool.

(** The loaders: the header and the rows of the file, or a parse failure. *)
Variable read_csv : string -> option (list label * list (list cell)).
Variable read_excel : string -> option (list label * list (list cell)).

(** Lines 460-507, for an uploaded file [name] with content [content];
    [clicked] tells whether the generate button was pressed. *)
Definition main_upload (name content : string) (clicked : bool) (w : World)
    : Shown * World :=
  let loaded :=
    match choose_loader name with
    | ReadCsv => read_csv content
    | ReadExcel => read_excel content
    end in
  match loaded with
  | None => (ShownError, w)
  | Some (header, data) =>
      let df := read_table header data in
      let total := "**Total rows:** " ++ PyStr.str_of_int (len df) in
      match columns_line df with
      | None => (ShownError, w)
      | Some line =>
          if clicked then
            match on_generate para_ok qr_ok build_ok df w with
            | (Download pdf_data, w) =>
                match download_file_name name with
                | Ok file_name =>
                    (ShownPreview total line (Some (Offered pdf_data file_name)), w)
                | Raise _ => (ShownError, w)
                end
            | (Failed, w) => (ShownPreview total line (Some NotGenerated), w)
            | (ErrorReading, w) => (ShownError, w)
            end
          else (ShownPreview total line None, w)
      end
  end.

End Main.

(** A label that is a string. *)
Definition is_str (l : label) : bool :=
  match l with LStr _ => true | LInt _ => false end.

Definition upper_label (l : label) : label :=
  match l with LStr s => LStr (PyStr.upper s) | LInt z => LInt z end.

(** Repeating the handler of the generate button. *)
Fixpoint repeat_generate (para_ok qr_ok : string -> bool)
    (build_ok : list Flowable -> bool) (df : DataFrame) (n : nat) (w : World)
    : World :=
  match n with
  | O => w
  | S n' =>
      repeat_generate para_ok qr_ok build_ok df n'
        (snd (on_generate para_ok qr_ok build_ok df w))
  end.

Definition total_length (parts : list string) : nat :=
  fold_right (fun s n => String.length s + n) 0 parts.

(** A header that lists a rack digit column before the rack column. *)
Definition rack_digits_header : list label :=
  [LStr "Part No"; LStr "Rack No. (1st digit)"; LStr "Rack"].

(** Two rows that differ only in a column no field resolves to. *)
Definition note_row_a : Series :=
  [(LStr "PART NO", CStr "A100"); (LStr "NOTE", CStr "first shelf")].

Definition note_row_b : Series :=
  [(LStr "PART NO", CStr "A100"); (LStr "NOTE", CStr "second shelf")].

Definition no_line_cols : LineCols :=
  {| model := None; station_no := None; rack := None; rack_no_1st := None;
     rack_no_2nd := None; level := None; cell_col := None |}.

Definition no_store_cols : StoreCols :=
  {| abb_zone := None; abb_location := None; abb_floor := None;
     abb_rack_no := None; abb_level_in_rack := None; abb_cell := None;
     abb_no := None |}.

(** Every page break of the story comes directly after a sticker table (and
    so none opens the story or follows another page break). *)
Fixpoint breaks_after_tables (story : list Flowable) : bool :=
  match story with
  | [] => true
  | PageBreak :: _ => false
  | FinalTable _ :: PageBreak :: story' => breaks_after_tables story'
  | _ :: story' => breaks_after_tables story'
  end.

(** What one iteration of the loop reports. *)
Definition row_events (qr_ok : string -> bool) (progress_bar status_container : bool)
    (header : list label) (total_rows : Z) (ir : Z * Series) : list Event :=
  ((if progress_bar then [EvProgress (fst ir + 1) total_rows] else [])
   ++ (if status_container
       then [EvWrite ("Creating sticker " ++ PyStr.str_of_int (fst ir + 1)
                        ++ " of " ++ PyStr.str_of_int total_rows)]
       else [])
   ++ (if qr_ok (qr_data
                   (record_of (find_column header PART_NO_KEYWORDS)
                      (find_column header DESC_KEYWORDS)
                      (find_column header QTY_BIN_KEYWORDS)
                      (find_line_location_columns header)
                      (find_store_location_columns header) (snd ir)))
       then [] else [EvQRError]))%list.

(** Whether the bar refuses the progress value of a row. *)
Definition progress_refused (progress_bar : bool) (total_rows : Z)
    (ir : Z * Series) : bool :=
  progress_bar
  && negb ((0 <=? fst ir + 1) && (fst ir + 1 <=? total_rows))%Z.

(** Closed forms of the loop: what it reports up to the row at which it
    stops, and the error it stops with ([None] when it gets through). *)
Fixpoint loop_events (para_ok qr_ok : string -> bool)
    (progress_bar status_container : bool) (header : list label)
    (total_rows : Z) (todo : list (Z * Series)) : list Event :=
  match todo with
  | [] => []
  | ir :: todo' =>
      if progress_refused progress_bar total_rows ir then []
      else (row_events qr_ok progress_bar status_container header total_rows ir
            ++ if row_texts_ok para_ok header (snd ir)
               then loop_events para_ok qr_ok progress_bar status_container
                      header total_rows todo'
               else [])%list
  end.

Fixpoint loop_error (para_ok : string -> bool) (progress_bar : bool)
    (header : list label) (total_rows : Z) (todo : list (Z * Series))
    : option PyErr :=
  match todo with
  | [] => None
  | ir :: todo' =>
      if progress_refused progress_bar total_rows ir
      then Some StreamlitAPIException
      else if row_texts_ok para_ok header (snd ir)
           then loop_error para_ok progress_bar header total_rows todo'
           else Some ValueError
  end.

(** An instance of [Paragraph] on the texts used below: it refuses the
    unclosed tag of the text <b>x. *)
Definition refuses_open_bold : string -> bool :=
  fun text => negb (String.eqb text "<b>x").

(** A table with such a cell, and no description or quantity column. *)
Definition markup_table : DataFrame :=
  read_table [LStr "PART NO"] [[CStr "<b>x"]].



(** A loader that delivers a table with a numeric column label. *)
Definition numbered_header_loader (content : string)
    : option (list label * list (list cell)) :=
  Some ([LStr "PART NO"; LInt 2024], [[CStr "A100"; CInt 5]]).

Definition failing_loader (content : string)
    : option (list label * list (list cell)) := None.

Definition empty_world : World := {| tmp_files := [] |}.

(** What an unguarded basic field (part number, description) holds. *)
Definition basic_ok (row : Series) (col : option string) (entry : string) : Prop :=
  (col = None -> entry = EmptyString) /\
  (col = Some EmptyString -> entry = EmptyString) /\
  (forall c, col = Some c -> series_has row c = false -> entry = EmptyString) /\
  (forall c v, col = Some c -> c <> EmptyString -> getitem row c = Ok v ->
               entry = py_str v).


(** * Properties *)

(** ** Strings *)

Lemma prefix_iff_app (s1 s2 : string) :
  String.prefix s1 s2 = true <-> exists post, s2 = s1 ++ post.
Proof.
  revert s2; induction s1 as [|a s1 IH]; intros s2.
  - split; [intros _; exists s2; reflexivity|].
    intros _; destruct s2; reflexivity.
  - destruct s2 as [|b s2]; simpl.
    + split; [discriminate|intros [post H]; discriminate].
    + destruct (ascii_dec a b) as [->|Hne].
      * rewrite IH; split; intros [post H]; exists post.
        -- now rewrite H.
        -- now inversion H.
      * split; [discriminate|].
        intros [post H]; simpl in H; injection H as Hab _.
        exfalso; apply Hne; now symmetry.
Qed.

Lemma str_in_unfold (needle hay : string) :
  PyStr.str_in needle hay =
  if String.prefix needle hay then true
  else match hay with
       | EmptyString => false
       | String _ hay' => PyStr.str_in needle hay'
       end.
Proof.
  destruct hay; reflexivity.
Qed.

Lemma str_in_iff (needle hay : string) :
  PyStr.str_in needle hay = true <->
  exists pre post, hay = pre ++ needle ++ post.
Proof.
  induction hay as [|c hay IH]; rewrite str_in_unfold.
  - destruct (String.prefix needle EmptyString) eqn:Hp.
    + split; [intros _|reflexivity].
      apply prefix_iff_app in Hp; destruct Hp as [post Hp].
      exists EmptyString, post; exact Hp.
    + split; [discriminate|].
      intros (pre & post & H).
      destruct pre; [|discriminate].
      assert (String.prefix needle EmptyString = true) as Hp'
        by (apply prefix_iff_app; exists post; exact H).
      congruence.
  - destruct (String.prefix needle (String c hay)) eqn:Hp.
    + split; [intros _|reflexivity].
      apply prefix_iff_app in Hp; destruct Hp as [post Hp].
      exists EmptyString, post; exact Hp.
    + rewrite IH; split.
      * intros (pre & post & H); exists (String c pre), post.
        simpl; now rewrite H.
      * intros (pre & post & H).
        destruct pre as [|d pre].
        -- assert (String.prefix needle (String c hay) = true) as Hp'
             by (apply prefix_iff_app; exists post; exact H).
           congruence.
        -- exists pre, post; now inversion H.
Qed.

Lemma upper_app (a b : string) :
  PyStr.upper (a ++ b) = PyStr.upper a ++ PyStr.upper b.
Proof.
  induction a as [|c a IH]; simpl; [reflexivity|now rewrite IH].
Qed.

Lemma upper_split (s x y : string) :
  PyStr.upper s = x ++ y ->
  exists s1 s2, s = s1 ++ s2 /\ PyStr.upper s1 = x /\ PyStr.upper s2 = y.
Proof.
  revert s; induction x as [|c x IH]; intros s H.
  - exists EmptyString, s; auto.
  - destruct s as [|d s]; [discriminate|].
    simpl in H; injection H as Hc Hs.
    destruct (IH s Hs) as (s1 & s2 & Hs12 & H1 & H2).
    exists (String d s1), s2; simpl.
    rewrite Hs12, Hc, H1; auto.
Qed.

Lemma upper_length (s : string) :
  String.length (PyStr.upper s) = String.length s.
Proof.
  induction s; simpl; congruence.
Qed.

Lemma upper_char_idem (c : ascii) :
  PyStr.upper_char (PyStr.upper_char c) = PyStr.upper_char c.
Proof.
  destruct c as [[] [] [] [] [] [] [] []]; reflexivity.
Qed.

Lemma upper_idem (s : string) : PyStr.upper (PyStr.upper s) = PyStr.upper s.
Proof.
  induction s as [|c s IH]; simpl; [reflexivity|].
  now rewrite upper_char_idem, IH.
Qed.

(** The test of [find_column] is containment up to case. *)
Lemma col_matches_iff (keyword s : string) :
  col_matches keyword (LStr s) = true <-> contains_ci keyword s.
Proof.
  unfold col_matches, contains_ci; rewrite str_in_iff; split.
  - intros (pre & post & H).
    apply upper_split in H; destruct H as (s1 & s2 & -> & H1 & H2).
    apply upper_split in H2; destruct H2 as (m & s3 & -> & Hm & H3).
    exists s1, m, s3; auto.
  - intros (pre & mid & post & -> & Hm).
    exists (PyStr.upper pre), (PyStr.upper post).
    now rewrite !upper_app, Hm.
Qed.

Lemma col_matches_false_iff (keyword s : string) :
  col_matches keyword (LStr s) = false <-> ~ contains_ci keyword s.
Proof.
  rewrite <- col_matches_iff.
  destruct (col_matches keyword (LStr s)); split; congruence.
Qed.

(** Containment up to case does not see the case of either side. *)
Lemma contains_ci_upper (alias col : string) :
  contains_ci alias col <->
  contains_ci (PyStr.upper alias) (PyStr.upper col).
Proof.
  rewrite <- !col_matches_iff; unfold col_matches.
  now rewrite !upper_idem.
Qed.

(** ** Column resolver *)

Lemma first_match_some (keyword : string) (cols : list label) (c : string) :
  first_match keyword cols = Some c ->
  exists j, nth_error cols j = Some (LStr c) /\
            contains_ci keyword c /\
            forall j' c', j' < j -> nth_error cols j' = Some (LStr c') ->
                          ~ contains_ci keyword c'.
Proof.
  induction cols as [|[s|z] cols IH]; simpl; [discriminate| |].
  - destruct (PyStr.str_in (PyStr.upper keyword) (PyStr.upper s)) eqn:Hm.
    + intros [= ->]; exists 0; split; [reflexivity|].
      split; [now apply col_matches_iff|].
      intros j' c' Hlt; lia.
    + intros H; destruct (IH H) as (j & Hj & Hc & Hmin).
      exists (S j); split; [exact Hj|]; split; [exact Hc|].
      intros [|j'] c' Hlt Hn; simpl in Hn.
      * injection Hn as ->; now apply col_matches_false_iff.
      * apply (Hmin j'); [lia|exact Hn].
  - intros H; destruct (IH H) as (j & Hj & Hc & Hmin).
    exists (S j); split; [exact Hj|]; split; [exact Hc|].
    intros [|j'] c' Hlt Hn; simpl in Hn; [discriminate|].
    apply (Hmin j'); [lia|exact Hn].
Qed.

Lemma first_match_none (keyword : string) (cols : list label) :
  first_match keyword cols = None ->
  forall c, In (LStr c) cols -> ~ contains_ci keyword c.
Proof.
  induction cols as [|[s|z] cols IH]; simpl; [intros _ c []| |].
  - destruct (PyStr.str_in (PyStr.upper keyword) (PyStr.upper s)) eqn:Hm;
      [discriminate|].
    intros H c [[= ->]|Hin]; [now apply col_matches_false_iff|now apply IH].
  - intros H c [Hin|Hin]; [discriminate|now apply IH].
Qed.

(** C1.  [find_column] returns the first column, aliases taken in priority
    order and, for one alias, columns in header order, whose name contains
    the alias up to case; it returns [None], without raising, exactly when
    no column contains any alias. *)
Theorem find_column_first_match (cols : list label) (keywords : list string) :
  match find_column cols keywords with
  | Some c =>
      exists i j kw,
        nth_error keywords i = Some kw /\
        nth_error cols j = Some (LStr c) /\
        contains_ci kw c /\
        (forall i' kw' c', i' < i -> nth_error keywords i' = Some kw' ->
                           In (LStr c') cols -> ~ contains_ci kw' c') /\
        (forall j' c', j' < j -> nth_error cols j' = Some (LStr c') ->
                       ~ contains_ci kw c')
  | None =>
      forall kw c, In kw keywords -> In (LStr c) cols -> ~ contains_ci kw c
  end.
Proof.
  induction keywords as [|keyword keywords IH]; simpl.
  - intros kw c [].
  - destruct (first_match keyword cols) as [c|] eqn:Hf.
    + destruct (first_match_some _ _ _ Hf) as (j & Hj & Hc & Hmin).
      exists 0, j, keyword; repeat split; try assumption.
      intros i' kw' c' Hlt; lia.
    + pose proof (first_match_none _ _ Hf) as Hnone.
      destruct (find_column cols keywords) as [c|].
      * destruct IH as (i & j & kw & Hi & Hj & Hc & Hprev & Hmin).
        exists (S i), j, kw; repeat split; try assumption.
        intros [|i'] kw' c' Hlt Hn Hin; simpl in Hn.
        -- injection Hn as <-; now apply Hnone.
        -- apply (Hprev i' kw' c'); [lia|exact Hn|exact Hin].
      * intros kw c [<-|Hin] Hc; [now apply Hnone|now apply IH].
Qed.

(** Alias priority comes before header order: the second column wins here,
    although the first contains the later alias PART. *)
Example find_column_alias_priority :
  find_column [LStr "Part Description"; LInt 7; LStr "part no."] PART_NO_KEYWORDS
  = Some "part no.".
Proof.
  reflexivity.
Qed.

Example find_column_header_order :
  find_column [LStr "Rack"; LStr "ABB FOR RACK NO"] ["RACK"] = Some "Rack".
Proof.
  reflexivity.
Qed.

Example find_column_unresolved :
  find_column [LStr "PART NO"; LStr "DESC"] QTY_BIN_KEYWORDS = None.
Proof.
  reflexivity.
Qed.

Lemma contains_ci_empty_col (alias : string) :
  contains_ci alias EmptyString -> alias = EmptyString.
Proof.
  intros (pre & mid & post & H & Hm).
  destruct pre; [|discriminate]; destruct mid; [|discriminate].
  apply (f_equal String.length) in Hm; rewrite upper_length in Hm.
  destruct alias; [reflexivity|discriminate].
Qed.

Lemma find_column_some_alias (cols : list label) (keywords : list string) (c : string) :
  find_column cols keywords = Some c ->
  exists kw, In kw keywords /\ first_match kw cols = Some c.
Proof.
  induction keywords as [|keyword keywords IH]; simpl; [discriminate|].
  destruct (first_match keyword cols) as [c'|] eqn:Hf.
  - intros [= ->]; exists keyword; auto.
  - intros H; destruct (IH H) as (kw & Hin & Hkw); exists kw; auto.
Qed.

(** A column resolved through non-empty aliases has a non-empty name, so the
    truthiness guard of the extractors never rejects a resolved column. *)
Lemma find_column_nonempty (cols : list label) (keywords : list string) (c : string) :
  (forall kw, In kw keywords -> kw <> EmptyString) ->
  find_column cols keywords = Some c -> c <> EmptyString.
Proof.
  intros Hkw Hf Hc; subst c.
  destruct (find_column_some_alias _ _ _ Hf) as (kw & Hin & Hm).
  destruct (first_match_some _ _ _ Hm) as (_ & _ & Hci & _).
  apply contains_ci_empty_col in Hci.
  now apply (Hkw kw).
Qed.

Ltac nonempty_aliases :=
  let kw := fresh "kw" in
  let Hin := fresh "Hin" in
  intros kw Hin; simpl in Hin;
  repeat (destruct Hin as [<-|Hin]; [discriminate|]);
  contradiction.

(** Every column the composer resolves has a non-empty name. *)
Lemma resolved_columns_nonempty (header : list label) (c : string) :
  In (Some c)
    ([find_column header PART_NO_KEYWORDS; find_column header DESC_KEYWORDS;
      find_column header QTY_BIN_KEYWORDS]
     ++ line_slots (find_line_location_columns header)
     ++ store_slots (find_store_location_columns header))%list ->
  c <> EmptyString.
Proof.
  unfold line_slots, store_slots, find_line_location_columns,
    find_store_location_columns.
  cbn [model station_no rack rack_no_1st rack_no_2nd level cell_col
       abb_zone abb_location abb_floor abb_rack_no abb_level_in_rack
       abb_cell abb_no app In].
  intros H.
  repeat (destruct H as [H|H];
          [eapply find_column_nonempty; [|exact H]; nonempty_aliases|]).
  contradiction.
Qed.

(** ** Field extraction *)

Lemma getitem_has (row : Series) (c : string) :
  series_has row c = true -> exists v, getitem row c = Ok v.
Proof.
  induction row as [|[l v] row IH]; simpl; [discriminate|].
  destruct (label_eqb l (LStr c)); simpl; [intros _; now exists v|exact IH].
Qed.

Lemma getitem_has_not (row : Series) (c : string) :
  series_has row c = false -> getitem row c = Raise KeyError.
Proof.
  induction row as [|[l v] row IH]; simpl; [reflexivity|].
  destruct (label_eqb l (LStr c)); simpl; [discriminate|exact IH].
Qed.

Lemma usable_getcol (row : Series) (col : option string) :
  usable row col = true -> exists v, getcol row col = Ok v.
Proof.
  destruct col as [c|]; simpl; [|discriminate].
  intros H; apply andb_true_iff in H; destruct H as [_ H].
  now apply getitem_has.
Qed.

Lemma assign_component_eq (components : list string) (i : nat)
    (row : Series) (col : option string) :
  assign_component components i row col =
  if usable row col then setitem components i (slot_text row col)
  else Ok components.
Proof.
  unfold assign_component, slot_text.
  destruct (usable row col) eqn:Hu; [|reflexivity].
  destruct (usable_getcol _ _ Hu) as [v Hv]; rewrite Hv; simpl.
  destruct (notna v); reflexivity.
Qed.

Lemma slot_text_unusable (row : Series) (col : option string) :
  usable row col = false -> slot_text row col = EmptyString.
Proof.
  unfold slot_text; now intros ->.
Qed.

Ltac step_assign :=
  rewrite assign_component_eq;
  match goal with
  | |- context [if usable ?r ?c then _ else _] =>
      let Hu := fresh "Hu" in
      destruct (usable r c) eqn:Hu;
      [|rewrite ?(slot_text_unusable _ _ Hu)]
  end;
  cbn [bind setitem].

Lemma extract_line_location_components_eq (row : Series) (lc : LineCols) :
  extract_line_location_components row lc = Ok (map (slot_text row) (line_slots lc)).
Proof.
  unfold extract_line_location_components, line_slots.
  cbn [repeat map].
  do 7 step_assign; reflexivity.
Qed.

Lemma extract_store_location_components_eq (row : Series) (sc : StoreCols) :
  extract_store_location_components row sc = Ok (map (slot_text row) (store_slots sc)).
Proof.
  unfold extract_store_location_components, store_slots.
  cbn [repeat map].
  do 7 step_assign; reflexivity.
Qed.

Lemma slot_text_ok (row : Series) (col : option string) :
  slot_ok row col (slot_text row col).
Proof.
  unfold slot_ok, slot_text; repeat split.
  - now intros ->.
  - now intros ->.
  - intros c -> Hh; simpl; rewrite Hh, andb_false_r; reflexivity.
  - intros c v -> Hv Hn; simpl.
    destruct (PyStr.nonempty c && series_has row c); [|reflexivity].
    now rewrite Hv, Hn.
  - intros c v -> Hc Hv Hn; simpl.
    assert (series_has row c = true) as Hh.
    { destruct (series_has row c) eqn:Hh; [reflexivity|].
      rewrite (getitem_has_not _ _ Hh) in Hv; discriminate. }
    rewrite Hh; destruct c; [contradiction|]; simpl.
    now rewrite Hv, Hn.
Qed.

Lemma slots_ok (row : Series) (cols : list (option string)) :
  Forall2 (slot_ok row) cols (map (slot_text row) cols).
Proof.
  induction cols; simpl; constructor; [apply slot_text_ok|assumption].
Qed.

Lemma series_has_getitem (row : Series) (c : string) :
  series_has row c =
  match getitem row c with Ok _ => true | Raise _ => false end.
Proof.
  induction row as [|[l v] row IH]; simpl; [reflexivity|].
  destruct (label_eqb l (LStr c)); [reflexivity|exact IH].
Qed.

Lemma usable_ext (row row' : Series) (col : option string) :
  (forall c, col = Some c -> getitem row c = getitem row' c) ->
  usable row col = usable row' col /\ getcol row col = getcol row' col.
Proof.
  intros H; destruct col as [c|]; [|split; reflexivity].
  cbn [usable getcol]; rewrite !series_has_getitem, (H c eq_refl).
  split; reflexivity.
Qed.

Lemma slot_text_ext (row row' : Series) (col : option string) :
  (forall c, col = Some c -> getitem row c = getitem row' c) ->
  slot_text row col = slot_text row' col /\
  basic_text row col = basic_text row' col.
Proof.
  intros H; destruct (usable_ext row row' col H) as [Hu Hg].
  unfold slot_text, basic_text; rewrite Hu, Hg; split; reflexivity.
Qed.

(** C2.  Both extractors return, without raising, a list of exactly seven
    entries; a slot is empty when its column is unresolved, absent from the
    row or null there, and is the stringified cell otherwise. *)
Theorem location_components_seven (row : Series) (lc : LineCols) (sc : StoreCols) :
  (exists comps,
      extract_line_location_components row lc = Ok comps /\
      List.length comps = 7 /\
      Forall2 (slot_ok row) (line_slots lc) comps) /\
  (exists comps,
      extract_store_location_components row sc = Ok comps /\
      List.length comps = 7 /\
      Forall2 (slot_ok row) (store_slots sc) comps).
Proof.
  split.
  - exists (map (slot_text row) (line_slots lc)).
    split; [apply extract_line_location_components_eq|].
    split; [reflexivity|apply slots_ok].
  - exists (map (slot_text row) (store_slots sc)).
    split; [apply extract_store_location_components_eq|].
    split; [reflexivity|apply slots_ok].
Qed.

(** ** Sticker pages *)

Lemma basic_field_eq (row : Series) (col : option string) :
  basic_field row col = Ok (basic_text row col).
Proof.
  unfold basic_field, basic_text.
  destruct (usable row col) eqn:Hu; [|reflexivity].
  destruct (usable_getcol _ _ Hu) as [v Hv]; now rewrite Hv.
Qed.

Lemma basic_field_notna_eq (row : Series) (col : option string) :
  basic_field_notna row col = Ok (slot_text row col).
Proof.
  unfold basic_field_notna, slot_text.
  destruct (usable row col) eqn:Hu; [|reflexivity].
  destruct (usable_getcol _ _ Hu) as [v Hv]; rewrite Hv; simpl.
  destruct (notna v); reflexivity.
Qed.

Lemma sticker_record_eq (part_no_col desc_col qty_bin_col : option string)
    (lc : LineCols) (sc : StoreCols) (row : Series) :
  sticker_record part_no_col desc_col qty_bin_col lc sc row =
  Ok (record_of part_no_col desc_col qty_bin_col lc sc row).
Proof.
  unfold sticker_record.
  rewrite !basic_field_eq; cbn [bind].
  rewrite basic_field_notna_eq; cbn [bind].
  rewrite extract_line_location_components_eq; cbn [bind].
  rewrite extract_store_location_components_eq; reflexivity.
Qed.

Lemma sticker_elements_eq (para_ok qr_ok : string -> bool)
    (part_no_col desc_col qty_bin_col : option string)
    (lc : LineCols) (sc : StoreCols) (row : Series) :
  sticker_elements para_ok qr_ok part_no_col desc_col qty_bin_col lc sc row =
  if texts_ok para_ok (record_of part_no_col desc_col qty_bin_col lc sc row)
  then Ok [Spacer;
           FinalTable (sticker_of qr_ok
                         (record_of part_no_col desc_col qty_bin_col lc sc row))]
  else Raise ValueError.
Proof.
  unfold sticker_elements; rewrite sticker_record_eq; cbn [bind].
  unfold texts_ok, paragraph, sticker_of, generate_qr_code.
  destruct (para_ok (part_no _)); cbn [bind andb]; [|reflexivity].
  destruct (para_ok (desc_text _)); cbn [bind andb]; [|reflexivity].
  destruct (para_ok (qty_bin _)); cbn [bind andb]; [|reflexivity].
  destruct (qr_ok _); reflexivity.
Qed.

Lemma process_rows_eq (para_ok qr_ok : string -> bool) (header : list label)
    (n : Z) (todo : list (Z * Series)) (acc : list Flowable) :
  process_rows para_ok qr_ok (find_column header PART_NO_KEYWORDS)
    (find_column header DESC_KEYWORDS) (find_column header QTY_BIN_KEYWORDS)
    (find_line_location_columns header) (find_store_location_columns header)
    n todo acc =
  if forallb (fun ir => row_texts_ok para_ok header (snd ir)) todo
  then Ok (acc ++ flat_map (row_block qr_ok header n) todo)%list
  else Raise ValueError.
Proof.
  revert acc; induction todo as [|[index row] todo IH]; intros acc.
  - simpl; now rewrite app_nil_r.
  - cbn [process_rows flat_map forallb snd].
    rewrite sticker_elements_eq; fold (row_texts_ok para_ok header row).
    destruct (row_texts_ok para_ok header row); cbn [bind andb]; [|reflexivity].
    rewrite IH; unfold row_block at 2, page_of; cbn [fst snd].
    destruct (forallb _ todo); [|reflexivity].
    destruct (index <? n - 1)%Z; f_equal.
    + now rewrite <- !app_assoc.
    + now rewrite app_nil_r, <- !app_assoc.
Qed.

Lemma build_story_eq (para_ok qr_ok : string -> bool) (df : DataFrame) :
  build_story para_ok qr_ok df =
  if table_texts_ok para_ok df
  then Ok (flat_map (row_block qr_ok (columns df) (len df)) (iterrows df))
  else Raise ValueError.
Proof.
  unfold build_story, table_texts_ok; now rewrite process_rows_eq.
Qed.

Lemma row_page_eq (para_ok qr_ok : string -> bool) (header : list label)
    (row : Series) :
  row_page para_ok qr_ok header row =
  if row_texts_ok para_ok header row then Ok (page_of qr_ok header row)
  else Raise ValueError.
Proof.
  apply sticker_elements_eq.
Qed.

Lemma row_record_eq (header : list label) (row : Series) :
  row_record header row =
  Ok (record_of (find_column header PART_NO_KEYWORDS)
        (find_column header DESC_KEYWORDS) (find_column header QTY_BIN_KEYWORDS)
        (find_line_location_columns header) (find_store_location_columns header)
        row).
Proof.
  apply sticker_record_eq.
Qed.

Lemma number_from_length (data : list (list cell)) (k : Z) :
  List.length (number_from k data) = List.length data.
Proof.
  revert k; induction data as [|r data IH]; intros k; simpl; [reflexivity|].
  now rewrite IH.
Qed.

(** With the default index the loop puts a page break after every row but
    the last. *)
Lemma blocks_default_index (qr_ok : string -> bool) (header : list label)
    (data : list (list cell)) (k : Z) :
  flat_map (row_block qr_ok header (k + Z.of_nat (List.length data)))
    (map (fun r => (fst r, combine header (snd r))) (number_from k data)) =
  join_pages (map (fun r => page_of qr_ok header (combine header r)) data).
Proof.
  revert k; induction data as [|r data IH]; intros k; [reflexivity|].
  cbn [number_from map flat_map List.length].
  replace (k + Z.of_nat (S (List.length data)))%Z
    with ((k + 1) + Z.of_nat (List.length data))%Z by lia.
  rewrite IH; unfold row_block; cbn [fst snd].
  destruct data as [|r' data].
  - cbn [List.length map join_pages].
    replace (k <? k + 1 + Z.of_nat 0 - 1)%Z with false
      by (symmetry; apply Z.ltb_ge; lia).
    now rewrite !app_nil_r.
  - replace (k <? k + 1 + Z.of_nat (List.length (r' :: data)) - 1)%Z with true
      by (symmetry; apply Z.ltb_lt; cbn [List.length]; lia).
    cbn [map join_pages]; now rewrite <- app_assoc.
Qed.

Lemma paginate_from_page (cur page : list Flowable) (rest : list Flowable) :
  Forall (fun f => is_page_break f = false) page ->
  paginate_from cur (page ++ rest) = paginate_from (rev page ++ cur) rest.
Proof.
  revert cur; induction page as [|f page IH]; intros cur Hp; [reflexivity|].
  inversion Hp as [|? ? Hf Hp']; subst.
  cbn [app rev]; rewrite <- app_assoc; cbn [app].
  destruct f; try discriminate; cbn [paginate_from]; now apply IH.
Qed.

Lemma paginate_join_pages (pages : list (list Flowable)) :
  Forall (fun p => p <> [] /\ Forall (fun f => is_page_break f = false) p) pages ->
  paginate (join_pages pages) = pages.
Proof.
  unfold paginate; induction pages as [|p pages IH]; intros Hp; [reflexivity|].
  inversion Hp as [|? ? [Hne Hnb] Hp']; subst.
  destruct pages as [|p' pages].
  - cbn [join_pages].
    rewrite <- (app_nil_r p) at 1.
    rewrite paginate_from_page by assumption.
    rewrite app_nil_r; cbn [paginate_from].
    destruct (rev p) eqn:Hr; [|now rewrite <- Hr, rev_involutive].
    apply (f_equal (@rev _)) in Hr; rewrite rev_involutive in Hr.
    contradiction.
  - change (join_pages (p :: p' :: pages))
      with (p ++ PageBreak :: join_pages (p' :: pages))%list.
    rewrite paginate_from_page by assumption.
    rewrite app_nil_r; cbn [paginate_from].
    now rewrite rev_involutive, IH.
Qed.

Lemma page_breaks_join_pages (pages : list (list Flowable)) :
  Forall (fun p => Forall (fun f => is_page_break f = false) p) pages ->
  List.length (filter is_page_break (join_pages pages)) =
  pred (List.length pages).
Proof.
  induction pages as [|p pages IH]; intros Hp; [reflexivity|].
  inversion Hp as [|? ? Hnb Hp']; subst.
  assert (filter is_page_break p = []) as Hf.
  { clear -Hnb; induction Hnb as [|f p Hf _ IH]; [reflexivity|].
    simpl; now rewrite Hf. }
  destruct pages as [|p' pages].
  - cbn [join_pages]; now rewrite Hf.
  - change (join_pages (p :: p' :: pages))
      with (p ++ PageBreak :: join_pages (p' :: pages))%list.
    rewrite filter_app, Hf; cbn [app filter is_page_break List.length].
    rewrite IH by assumption; reflexivity.
Qed.

Lemma join_pages_last (pages : list (list Flowable)) :
  Forall (fun p => p <> [] /\ Forall (fun f => is_page_break f = false) p) pages ->
  is_page_break (last (join_pages pages) Spacer) = false.
Proof.
  induction pages as [|p pages IH]; intros Hp; [reflexivity|].
  inversion Hp as [|? ? [Hne Hnb] Hp']; subst.
  destruct pages as [|p' pages].
  - cbn [join_pages].
    destruct (exists_last Hne) as (q & f & ->).
    rewrite last_last.
    apply Forall_app in Hnb; destruct Hnb as [_ Hf].
    now inversion Hf.
  - change (join_pages (p :: p' :: pages))
      with (p ++ PageBreak :: join_pages (p' :: pages))%list.
    specialize (IH Hp').
    assert (join_pages (p' :: pages) <> []) as Hj.
    { inversion Hp' as [|? ? [Hne' _] _]; subst.
      destruct pages; cbn [join_pages]; [assumption|].
      destruct p'; [contradiction|discriminate]. }
    destruct (exists_last Hj) as (q & f & Hq).
    rewrite Hq in IH |- *; rewrite last_last in IH.
    change (p ++ PageBreak :: q ++ [f])%list
      with (p ++ (PageBreak :: q) ++ [f])%list.
    now rewrite app_assoc, last_last.
Qed.

Lemma pages_well_formed (qr_ok : string -> bool) (header : list label)
    (rws : list Series) :
  Forall (fun p => p <> [] /\ Forall (fun f => is_page_break f = false) p)
    (map (page_of qr_ok header) rws).
Proof.
  induction rws as [|r rws IH]; simpl; constructor; [|assumption].
  split; [discriminate|]; unfold page_of; repeat constructor.
Qed.

Lemma table_texts_ok_read_table (para_ok : string -> bool) (header : list label)
    (data : list (list cell)) :
  table_texts_ok para_ok (read_table header data) =
  forallb (row_texts_ok para_ok header) (map (combine header) data).
Proof.
  unfold table_texts_ok, read_table, iterrows; cbn [columns rows].
  generalize 0%Z as k; induction data as [|r data IH]; intros k; [reflexivity|].
  cbn [number_from map forallb snd]; now rewrite IH.
Qed.

Lemma build_story_read_table (para_ok qr_ok : string -> bool)
    (header : list label) (data : list (list cell)) :
  build_story para_ok qr_ok (read_table header data) =
  if table_texts_ok para_ok (read_table header data)
  then Ok (join_pages (map (page_of qr_ok header) (map (combine header) data)))
  else Raise ValueError.
Proof.
  rewrite build_story_eq.
  destruct (table_texts_ok para_ok (read_table header data)); [|reflexivity].
  unfold read_table, iterrows, len; cbn [columns rows].
  rewrite number_from_length.
  change (Z.of_nat (List.length data)) with (0 + Z.of_nat (List.length data))%Z.
  rewrite blocks_default_index, map_map; reflexivity.
Qed.

(** C3, as stated, fails twice over: a cell that [Paragraph] cannot parse
    stops the loop, so no document is made; and a table whose index labels
    are not 0..n-1 gets no page break, so its two rows share one page. *)
Lemma one_page_per_row_as_stated_fails :
  build_story refuses_open_bold (always true) markup_table = Raise ValueError /\
  exists story,
    build_story (always true) (always true) relabelled_table = Ok story /\
    List.length (paginate story) = 1 /\
    List.length (rows relabelled_table) = 2.
Proof.
  split; [reflexivity|].
  eexists; split; [reflexivity|]; split; reflexivity.
Qed.

(** C3, amended.  For a table as the loaders deliver it, all of whose texts
    [Paragraph] accepts, the story is the rows' pages in order with one page
    break between neighbours and none after the last: as many pages as
    rows.  When a text is refused, the loop raises and there is no story. *)
Theorem one_page_per_row (para_ok qr_ok : string -> bool) (header : list label)
    (data : list (list cell)) :
  (table_texts_ok para_ok (read_table header data) = true ->
   exists pages,
     build_story para_ok qr_ok (read_table header data) = Ok (join_pages pages) /\
     Forall2 (fun r p => row_page para_ok qr_ok header (combine header r) = Ok p)
       data pages /\
     paginate (join_pages pages) = pages /\
     List.length (paginate (join_pages pages)) = List.length data /\
     List.length (filter is_page_break (join_pages pages)) =
       pred (List.length data) /\
     is_page_break (last (join_pages pages) Spacer) = false) /\
  (table_texts_ok para_ok (read_table header data) = false ->
   build_story para_ok qr_ok (read_table header data) = Raise ValueError).
Proof.
  split; intros Hok; [|now rewrite build_story_eq, Hok].
  exists (map (page_of qr_ok header) (map (combine header) data)).
  pose proof (pages_well_formed qr_ok header (map (combine header) data)) as Hwf.
  assert (paginate (join_pages (map (page_of qr_ok header) (map (combine header) data)))
          = map (page_of qr_ok header) (map (combine header) data)) as Hpg
    by (apply paginate_join_pages; exact Hwf).
  split; [|split; [|split; [exact Hpg|split; [|split]]]].
  - now rewrite build_story_read_table, Hok.
  - rewrite table_texts_ok_read_table in Hok.
    clear -Hok; induction data as [|r data IH]; simpl; constructor.
    + cbn [map forallb] in Hok; apply andb_true_iff in Hok.
      rewrite row_page_eq; now rewrite (proj1 Hok).
    + apply IH; cbn [map forallb] in Hok; apply andb_true_iff in Hok; tauto.
  - now rewrite Hpg, !length_map.
  - rewrite page_breaks_join_pages, !length_map; [reflexivity|].
    eapply Forall_impl; [|exact Hwf]; intros p [_ H]; exact H.
  - now apply join_pages_last.
Qed.

Lemma one_page_per_row_witness :
  table_texts_ok (always true) no_qty_table = true /\
  exists pages,
    build_story (always true) (always false) no_qty_table = Ok (join_pages pages) /\
    List.length (paginate (join_pages pages)) = 2.
Proof.
  split; [reflexivity|].
  destruct (proj1 (one_page_per_row (always true) (always false)
                     [LStr "PART NO"; LStr "DESC"; LStr "MODEL"]
                     [[CStr "A100"; CStr "Bolt M6"; CStr "X1"];
                      [CStr "A200"; CStr "Nut M6"; CStr "X2"]]) eq_refl)
    as (pages & Hb & _ & _ & Hl & _).
  exists pages; split; [exact Hb|exact Hl].
Defined.

(** The page break test compares the index label of the row, so the
    property above rests on the default index of a loaded table. *)
Example page_breaks_follow_index_labels :
  build_story (always true) (always true) relabelled_table =
  Ok (page_of (always true) [LStr "PART NO"] [(LStr "PART NO", CStr "A100")]
      ++ page_of (always true) [LStr "PART NO"] [(LStr "PART NO", CStr "A200")])%list.
Proof.
  reflexivity.
Qed.

(** ** The end-to-end scenario *)

Lemma scenario_line_columns :
  find_line_location_columns scenario_header =
  {| model := Some "MODEL"; station_no := Some "STATION NO";
     rack := Some "RACK"; rack_no_1st := None; rack_no_2nd := None;
     level := Some "LEVEL"; cell_col := Some "CELL" |}.
Proof.
  vm_compute; reflexivity.
Qed.

(** C4, as stated, fails: with an empty LEVEL and the CELL value L4, the
    strip of page 1 has L4 in the cell slot, not in the level slot. *)
Lemma scenario_strip_as_stated_fails :
  first_line_strip (build_story (always true) (always true) scenario_example) <>
  Some ["X1"; "S3"; "R2"; EmptyString; EmptyString; "L4"; EmptyString].
Proof.
  vm_compute; discriminate.
Qed.

(** C4, amended.  The scenario table gives a story of two pages, and the
    Line Location strip of page 1 reads X1, S3, R2, empty, empty, empty, L4
    in the slot order model, station, rack, rack digit 1, rack digit 2,
    level, cell.  The values left open by the scenario are arbitrary, as
    long as [Paragraph] accepts the texts of the two rows. *)
Theorem scenario_first_page_strip (para_ok qr_ok : string -> bool)
    (b1 b2 b3 : cell) (rest row2 : list cell) :
  blank b1 = true ->
  table_texts_ok para_ok (scenario_table b1 b2 b3 rest row2) = true ->
  exists story,
    build_story para_ok qr_ok (scenario_table b1 b2 b3 rest row2) = Ok story /\
    List.length (paginate story) = 2 /\
    first_line_strip (Ok story) =
      Some ["X1"; "S3"; "R2"; EmptyString; EmptyString; EmptyString; "L4"].
Proof.
  intros Hb Hok; unfold scenario_table in *.
  rewrite build_story_read_table, Hok; eexists; split; [reflexivity|].
  split.
  - rewrite paginate_join_pages by apply pages_well_formed; reflexivity.
  - cbn [map join_pages page_of app first_line_strip stickers_of
         sticker_of line_loc_strip record_of line_location_parts].
    rewrite scenario_line_columns; unfold line_slots.
    cbn [model station_no rack rack_no_1st rack_no_2nd level cell_col map].
    unfold slot_text, scenario_row1, scenario_header.
    cbn [map app combine usable getcol getitem series_has existsb fst
         label_eqb PyStr.nonempty andb orb].
    cbn.
    destruct b1 as [[|c s]| | | |]; try discriminate; reflexivity.
Qed.

Lemma scenario_first_page_strip_witness :
  blank (CStr EmptyString) = true /\
  table_texts_ok (always true) scenario_example = true /\
  exists story,
    build_story (always true) (always true) scenario_example = Ok story /\
    List.length (paginate story) = 2 /\
    first_line_strip (Ok story) =
      Some ["X1"; "S3"; "R2"; EmptyString; EmptyString; EmptyString; "L4"].
Proof.
  split; [reflexivity|]; split; [reflexivity|].
  apply (scenario_first_page_strip (always true) (always true)); reflexivity.
Defined.

(** ** The temporary file *)

Lemma path_le_max (fs : list (nat * option (list Flowable))) (f : nat * option (list Flowable)) :
  In f fs -> fst f <= fold_right Nat.max 0 (map fst fs).
Proof.
  induction fs as [|g fs IH]; simpl; [intros []|].
  intros [->|Hin]; [lia|].
  specialize (IH Hin); lia.
Qed.

Lemma fresh_path_is_fresh (w : World) : file_exists w (fresh_path w) = false.
Proof.
  unfold file_exists, fresh_path.
  destruct (existsb _ _) eqn:He; [|reflexivity].
  apply existsb_exists in He; destruct He as (f & Hin & Heq).
  apply Nat.eqb_eq in Heq; apply path_le_max in Hin; lia.
Qed.

Lemma unlink_fresh (w : World) :
  filter (fun f => negb (Nat.eqb (fst f) (fresh_path w))) (tmp_files w) =
  tmp_files w.
Proof.
  unfold fresh_path.
  assert (forall f, In f (tmp_files w) ->
                    fst f <= fold_right Nat.max 0 (map fst (tmp_files w))) as H
    by (intros f; apply path_le_max).
  revert H; generalize (fold_right Nat.max 0 (map fst (tmp_files w))) as m.
  induction (tmp_files w) as [|g fs IH]; intros m H; simpl; [reflexivity|].
  assert (Nat.eqb (fst g) (S m) = false) as ->.
  { apply Nat.eqb_neq; specialize (H g (or_introl eq_refl)); lia. }
  simpl; f_equal; apply IH; intros f Hin; apply H; now right.
Qed.

(** C5, on the code.  When the loop gets through and [doc.build] succeeds,
    the document is offered for download and the temporary file is removed.
    When [doc.build] raises, nothing is offered and the temporary file
    created for the run is still there afterwards; the same holds when the
    loop itself raises. *)
Theorem temp_file_after_generate (para_ok qr_ok : string -> bool)
    (build_ok : list Flowable -> bool) (df : DataFrame) (w : World) :
  file_exists w (fresh_path w) = false /\
  match build_story para_ok qr_ok df with
  | Ok story =>
      if build_ok story
      then on_generate para_ok qr_ok build_ok df w = (Download (Some story), w)
      else on_generate para_ok qr_ok build_ok df w =
             (Failed, create_file w (fresh_path w)) /\
           file_exists (create_file w (fresh_path w)) (fresh_path w) = true
  | Raise _ =>
      on_generate para_ok qr_ok build_ok df w =
        (ErrorReading, create_file w (fresh_path w)) /\
      file_exists (create_file w (fresh_path w)) (fresh_path w) = true
  end.
Proof.
  split; [apply fresh_path_is_fresh|].
  unfold on_generate, generate_sticker_labels.
  destruct (build_story para_ok qr_ok df) as [story|e].
  - destruct (build_ok story).
    + unfold write_file, create_file, unlink.
      cbn [tmp_files write_entry read_entry fst filter].
      rewrite Nat.eqb_refl; cbn [tmp_files write_entry read_entry fst filter].
      rewrite Nat.eqb_refl; cbn [negb].
      rewrite unlink_fresh; destruct w; reflexivity.
    + split; [reflexivity|].
      unfold file_exists, create_file; cbn [tmp_files existsb fst].
      now rewrite Nat.eqb_refl.
  - split; [reflexivity|].
    unfold file_exists, create_file; cbn [tmp_files existsb fst].
    now rewrite Nat.eqb_refl.
Qed.

(** The failure path on a concrete run: the table has one row, [doc.build]
    raises, and the file created for the run stays behind. *)
Lemma temp_file_leak_example :
  on_generate (always true) (always true) (fun _ => false)
    (read_table [LStr "PART NO"] [[CStr "A100"]]) {| tmp_files := [] |} =
  (Failed, {| tmp_files := [(1, None)] |}).
Proof.
  reflexivity.
Qed.

(** ** Description and QR payload *)

Lemma append_assoc (a b c : string) : (a ++ b) ++ c = a ++ (b ++ c).
Proof.
  induction a as [|x a IH]; simpl; [reflexivity|now rewrite IH].
Qed.

Lemma substring_prefix (n : nat) (s : string) :
  n <= String.length s ->
  exists tail,
    s = String.substring 0 n s ++ tail /\
    String.length (String.substring 0 n s) = n.
Proof.
  revert s; induction n as [|n IH]; intros s Hn.
  - exists s; destruct s; auto.
  - destruct s as [|c s]; simpl in Hn; [lia|].
    destruct (IH s) as (tail & Hs & Hl); [lia|].
    exists tail; simpl; split; [now rewrite <- Hs|now rewrite Hl].
Qed.



Lemma basic_text_ok (row : Series) (col : option string) :
  basic_ok row col (basic_text row col).
Proof.
  unfold basic_ok, basic_text; repeat split.
  - now intros ->.
  - now intros ->.
  - intros c -> Hh; simpl; rewrite Hh, andb_false_r; reflexivity.
  - intros c v -> Hc Hv; simpl.
    rewrite series_has_getitem, Hv; destruct c; [contradiction|reflexivity].
Qed.

(** C7.  The payload of a row is the fixed template: the three labelled
    basic fields, then the seven Line Location entries and the seven Store
    Location entries, each joined by space, bar, space.  Every field is what
    the row holds in the column the field resolved to, so the payload is
    fixed by those cells alone: rows that agree on them give the same
    payload. *)
Theorem qr_payload_template (part_no_col desc_col qty_bin_col : option string)
    (lc : LineCols) (sc : StoreCols) (row : Series) :
  exists r l0 l1 l2 l3 l4 l5 l6 s0 s1 s2 s3 s4 s5 s6,
    sticker_record part_no_col desc_col qty_bin_col lc sc row = Ok r /\
    basic_ok row part_no_col (part_no r) /\
    basic_ok row desc_col (desc r) /\
    slot_ok row qty_bin_col (qty_bin r) /\
    line_location_parts r = [l0; l1; l2; l3; l4; l5; l6] /\
    Forall2 (slot_ok row) (line_slots lc) [l0; l1; l2; l3; l4; l5; l6] /\
    store_location_parts r = [s0; s1; s2; s3; s4; s5; s6] /\
    Forall2 (slot_ok row) (store_slots sc) [s0; s1; s2; s3; s4; s5; s6] /\
    qr_data r =
      "Part No: " ++ part_no r ++ nl ++
      "Description: " ++ desc r ++ nl ++
      "QTY/BIN: " ++ qty_bin r ++ nl ++
      "Line Location: " ++ l0 ++ " | " ++ l1 ++ " | " ++ l2 ++ " | " ++ l3
        ++ " | " ++ l4 ++ " | " ++ l5 ++ " | " ++ l6 ++ nl ++
      "Store Location: " ++ s0 ++ " | " ++ s1 ++ " | " ++ s2 ++ " | " ++ s3
        ++ " | " ++ s4 ++ " | " ++ s5 ++ " | " ++ s6 /\
    forall row',
      (forall c,
          In (Some c)
             ([part_no_col; desc_col; qty_bin_col]
              ++ line_slots lc ++ store_slots sc)%list ->
          getitem row c = getitem row' c) ->
      exists r',
        sticker_record part_no_col desc_col qty_bin_col lc sc row' = Ok r' /\
        qr_data r' = qr_data r.
Proof.
  exists (record_of part_no_col desc_col qty_bin_col lc sc row).
  exists (slot_text row (model lc)), (slot_text row (station_no lc)),
    (slot_text row (rack lc)), (slot_text row (rack_no_1st lc)),
    (slot_text row (rack_no_2nd lc)), (slot_text row (level lc)),
    (slot_text row (cell_col lc)).
  exists (slot_text row (abb_zone sc)), (slot_text row (abb_location sc)),
    (slot_text row (abb_floor sc)), (slot_text row (abb_rack_no sc)),
    (slot_text row (abb_level_in_rack sc)), (slot_text row (abb_cell sc)),
    (slot_text row (abb_no sc)).
  split; [apply sticker_record_eq|].
  split; [apply basic_text_ok|]; split; [apply basic_text_ok|].
  split; [apply slot_text_ok|]; split; [reflexivity|].
  split; [apply (slots_ok row (line_slots lc))|]; split; [reflexivity|].
  split; [apply (slots_ok row (store_slots sc))|]; split.
  - unfold record_of, qr_payload, line_slots, store_slots.
    cbn [qr_data part_no desc qty_bin map String.concat].
    repeat rewrite append_assoc; reflexivity.
  - intros row' H.
    exists (record_of part_no_col desc_col qty_bin_col lc sc row').
    split; [apply sticker_record_eq|].
    assert (forall col,
               In col ([part_no_col; desc_col; qty_bin_col]
                       ++ line_slots lc ++ store_slots sc)%list ->
               slot_text row' col = slot_text row col /\
               basic_text row' col = basic_text row col) as Hcol.
    { intros col Hin; apply slot_text_ext; intros c ->; symmetry; now apply H. }
    unfold record_of; cbn [qr_data].
    rewrite (map_ext_in (slot_text row') (slot_text row) (line_slots lc))
      by (intros col Hin; apply Hcol; apply in_or_app; right;
          apply in_or_app; now left).
    rewrite (map_ext_in (slot_text row') (slot_text row) (store_slots sc))
      by (intros col Hin; apply Hcol; apply in_or_app; right;
          apply in_or_app; now right).
    rewrite (proj2 (Hcol part_no_col (or_introl eq_refl))).
    rewrite (proj2 (Hcol desc_col (or_intror (or_introl eq_refl)))).
    rewrite (proj1 (Hcol qty_bin_col
                      (or_intror (or_intror (or_introl eq_refl))))).
    reflexivity.
Qed.

Lemma qr_payload_template_witness :
  exists r r',
    sticker_record (Some "PART NO") None None no_line_cols no_store_cols
      note_row_a = Ok r /\
    sticker_record (Some "PART NO") None None no_line_cols no_store_cols
      note_row_b = Ok r' /\
    part_no r = "A100" /\
    qr_data r' = qr_data r.
Proof.
  destruct (qr_payload_template (Some "PART NO") None None no_line_cols
              no_store_cols note_row_a)
    as (r & l0 & l1 & l2 & l3 & l4 & l5 & l6 & s0 & s1 & s2 & s3 & s4 & s5 & s6
        & Hr & (_ & _ & _ & Hp) & _ & _ & _ & _ & _ & _ & _ & Hsame).
  destruct (Hsame note_row_b) as (r' & Hr' & Heq).
  - intros c Hin; simpl in Hin.
    repeat (destruct Hin as [Hin|Hin]; [try discriminate|]);
      [injection Hin as <-; reflexivity|contradiction].
  - exists r, r'; repeat split; try assumption.
    apply (Hp "PART NO" (CStr "A100")); [reflexivity|discriminate|reflexivity].
Defined.

(** ** Rows, failures and missing columns *)

Lemma stickers_of_app (a b : list Flowable) :
  stickers_of (a ++ b) = (stickers_of a ++ stickers_of b)%list.
Proof.
  induction a as [|f a IH]; [reflexivity|].
  destruct f; simpl; now rewrite IH.
Qed.

Lemma stickers_of_blocks (qr_ok : string -> bool) (header : list label) (n : Z)
    (todo : list (Z * Series)) :
  stickers_of (flat_map (row_block qr_ok header n) todo) =
  map (fun ir =>
         sticker_of qr_ok
           (record_of (find_column header PART_NO_KEYWORDS)
              (find_column header DESC_KEYWORDS)
              (find_column header QTY_BIN_KEYWORDS)
              (find_line_location_columns header)
              (find_store_location_columns header) (snd ir))) todo.
Proof.
  induction todo as [|[index row] todo IH]; [reflexivity|].
  cbn [flat_map map]; rewrite stickers_of_app, IH.
  unfold row_block, page_of; cbn [fst snd].
  destruct (index <? n - 1)%Z; reflexivity.
Qed.

Lemma iterrows_length (df : DataFrame) :
  List.length (iterrows df) = List.length (rows df).
Proof.
  unfold iterrows; apply length_map.
Qed.

Lemma stickers_match_rows (qr_ok : string -> bool) (header : list label)
    (todo : list (Z * Series)) :
  Forall2
    (fun ir s =>
       exists r,
         row_record header (snd ir) = Ok r /\
         part_no_par s = part_no r /\
         desc_par s = desc_text (desc r) /\
         qty_par s = qty_bin r /\
         store_loc_strip s = store_location_parts r /\
         line_loc_strip s = line_location_parts r /\
         qr_cell s = if qr_ok (qr_data r) then QRImage (qr_data r)
                     else QRPlaceholder)
    todo
    (map (fun ir =>
            sticker_of qr_ok
              (record_of (find_column header PART_NO_KEYWORDS)
                 (find_column header DESC_KEYWORDS)
                 (find_column header QTY_BIN_KEYWORDS)
                 (find_line_location_columns header)
                 (find_store_location_columns header) (snd ir))) todo).
Proof.
  induction todo as [|ir todo IH]; simpl; constructor; [|exact IH].
  eexists; split; [apply row_record_eq|].
  repeat split.
Qed.

(** C8, as stated, fails: on a row whose payload the encoder rejects and
    whose part number [Paragraph] cannot parse, the run is aborted. *)
Lemma qr_failure_as_stated_fails :
  exists r,
    row_record (columns markup_table) [(LStr "PART NO", CStr "<b>x")] = Ok r /\
    generate_qr_code (always false) (qr_data r) = None /\
    build_story refuses_open_bold (always false) markup_table = Raise ValueError.
Proof.
  eexists; split; [reflexivity|]; split; reflexivity.
Qed.

(** C8, amended.  A QR failure by itself never aborts the run: whether the
    story is built does not depend on the encoder.  When [Paragraph]
    accepts the texts of the table, the story holds one sticker per row, in
    row order, whatever payloads the encoder rejects; the sticker of a row
    whose payload is rejected carries the placeholder, every other the
    image. *)
Theorem qr_failure_is_per_row (para_ok qr_ok : string -> bool) (df : DataFrame) :
  (forall qr_ok',
      (exists story, build_story para_ok qr_ok df = Ok story) <->
      (exists story', build_story para_ok qr_ok' df = Ok story')) /\
  (table_texts_ok para_ok df = true ->
   exists story,
     build_story para_ok qr_ok df = Ok story /\
     List.length (stickers_of story) = List.length (rows df) /\
     Forall2
       (fun ir s =>
          exists r,
            row_record (columns df) (snd ir) = Ok r /\
            part_no_par s = part_no r /\
            desc_par s = desc_text (desc r) /\
            qty_par s = qty_bin r /\
            store_loc_strip s = store_location_parts r /\
            line_loc_strip s = line_location_parts r /\
            qr_cell s = if qr_ok (qr_data r) then QRImage (qr_data r)
                        else QRPlaceholder)
       (iterrows df) (stickers_of story)).
Proof.
  split.
  - intros qr_ok'; rewrite !build_story_eq.
    destruct (table_texts_ok para_ok df).
    + split; intros _; eexists; reflexivity.
    + split; intros [story H]; discriminate.
  - intros Hok; rewrite build_story_eq, Hok.
    eexists; split; [reflexivity|].
    rewrite stickers_of_blocks; split.
    + now rewrite length_map, iterrows_length.
    + apply stickers_match_rows.
Qed.

Lemma qr_failure_is_per_row_witness :
  table_texts_ok (always true) no_qty_table = true /\
  exists story,
    build_story (always true) (always false) no_qty_table = Ok story /\
    List.length (stickers_of story) = 2 /\
    Forall (fun s => qr_cell s = QRPlaceholder) (stickers_of story).
Proof.
  split; [reflexivity|].
  destruct (proj2 (qr_failure_is_per_row (always true) (always false)
                     no_qty_table) eq_refl)
    as (story & Hs & Hl & Hall).
  exists story; split; [exact Hs|]; split; [exact Hl|].
  clear -Hall; induction Hall as [|ir s todo ss (r & _ & _ & _ & _ & _ & _ & Hq) _ IH];
    constructor; [exact Hq|exact IH].
Defined.

(** C9, as stated, fails: a table without a quantity column whose part
    number [Paragraph] cannot parse does not get through generation. *)
Lemma unresolved_basic_field_as_stated_fails :
  find_column (columns markup_table) QTY_BIN_KEYWORDS = None /\
  build_story refuses_open_bold (always true) markup_table = Raise ValueError.
Proof.
  split; reflexivity.
Qed.

(** C9, amended.  A basic field whose column is unresolved raises nothing
    and is the empty string in the record of every row.  When [Paragraph]
    accepts the texts of the table, the story is built and the field is the
    empty string on every sticker. *)
Theorem unresolved_basic_field_is_empty (para_ok qr_ok : string -> bool)
    (df : DataFrame) :
  Forall
    (fun ir =>
       exists r,
         row_record (columns df) (snd ir) = Ok r /\
         (find_column (columns df) PART_NO_KEYWORDS = None ->
          part_no r = EmptyString) /\
         (find_column (columns df) DESC_KEYWORDS = None ->
          desc r = EmptyString) /\
         (find_column (columns df) QTY_BIN_KEYWORDS = None ->
          qty_bin r = EmptyString))
    (iterrows df) /\
  (table_texts_ok para_ok df = true ->
   exists story,
     build_story para_ok qr_ok df = Ok story /\
     List.length (stickers_of story) = List.length (rows df) /\
     (find_column (columns df) PART_NO_KEYWORDS = None ->
      Forall (fun s => part_no_par s = EmptyString) (stickers_of story)) /\
     (find_column (columns df) DESC_KEYWORDS = None ->
      Forall (fun s => desc_par s = EmptyString) (stickers_of story)) /\
     (find_column (columns df) QTY_BIN_KEYWORDS = None ->
      Forall (fun s => qty_par s = EmptyString) (stickers_of story))).
Proof.
  split.
  - apply Forall_forall; intros ir _.
    eexists; split; [apply row_record_eq|].
    repeat split; intros ->; reflexivity.
  - intros Hok; rewrite build_story_eq, Hok.
    eexists; split; [reflexivity|].
    rewrite stickers_of_blocks; split; [now rewrite length_map, iterrows_length|].
    repeat split; intros ->; apply Forall_forall; intros s Hs;
      apply in_map_iff in Hs; destruct Hs as (ir & <- & _); reflexivity.
Qed.

Lemma unresolved_basic_field_is_empty_witness :
  find_column (columns no_qty_table) QTY_BIN_KEYWORDS = None /\
  table_texts_ok (always true) no_qty_table = true /\
  exists story,
    build_story (always true) (always true) no_qty_table = Ok story /\
    List.length (stickers_of story) = 2 /\
    Forall (fun s => qty_par s = EmptyString) (stickers_of story).
Proof.
  split; [reflexivity|]; split; [reflexivity|].
  destruct (proj2 (unresolved_basic_field_is_empty (always true) (always true)
                     no_qty_table) eq_refl)
    as (story & Hs & Hl & _ & _ & Hq).
  exists story; split; [exact Hs|]; split; [exact Hl|].
  apply Hq; reflexivity.
Defined.




(** * Further properties of the code *)

(** ** More on the column resolver *)

(** X1.  Resolving over two alias lists in a row is resolving over the
    first and, only when that finds nothing, over the second. *)
Theorem find_column_app (cols : list label) (kws1 kws2 : list string) :
  find_column cols (kws1 ++ kws2)%list =
  match find_column cols kws1 with
  | Some c => Some c
  | None => find_column cols kws2
  end.
Proof.
  induction kws1 as [|kw kws1 IH]; [reflexivity|].
  cbn [app find_column].
  destruct (first_match kw cols); [reflexivity|exact IH].
Qed.

Lemma first_match_alias_upper (kw : string) (cols : list label) :
  first_match (PyStr.upper kw) cols = first_match kw cols.
Proof.
  induction cols as [|[s|z] cols IH]; [reflexivity| |exact IH].
  cbn [first_match col_matches]; now rewrite upper_idem, IH.
Qed.

Lemma first_match_header_upper (kw : string) (cols : list label) :
  first_match kw (map upper_label cols) =
  option_map PyStr.upper (first_match kw cols).
Proof.
  induction cols as [|[s|z] cols IH]; [reflexivity| |exact IH].
  cbn [map upper_label first_match col_matches]; rewrite upper_idem.
  destruct (PyStr.str_in _ _); [reflexivity|exact IH].
Qed.

(** X2.  The case of letters plays no part in the choice: upper-casing the
    aliases changes nothing, and upper-casing the header makes the resolver
    pick the same column, under its upper-cased name. *)
Theorem find_column_case_blind (cols : list label) (keywords : list string) :
  find_column cols (map PyStr.upper keywords) = find_column cols keywords /\
  find_column (map upper_label cols) keywords =
    option_map PyStr.upper (find_column cols keywords).
Proof.
  split; induction keywords as [|kw keywords IH]; try reflexivity.
  - cbn [map find_column]; rewrite first_match_alias_upper, IH; reflexivity.
  - cbn [find_column]; rewrite first_match_header_upper, IH.
    destruct (first_match kw cols); reflexivity.
Qed.

(** X3.  Labels that are not strings are invisible to the resolver: dropping
    them from the header gives the same answer, and the answer is always the
    name of a string label of the header. *)
Theorem find_column_skips_non_strings (cols : list label) (keywords : list string) :
  find_column (filter is_str cols) keywords = find_column cols keywords /\
  forall c, find_column cols keywords = Some c -> In (LStr c) (filter is_str cols).
Proof.
  assert (forall kw, first_match kw (filter is_str cols) = first_match kw cols) as Hf.
  { intros kw; induction cols as [|[s|z] cols IH]; [reflexivity| |exact IH].
    cbn [filter is_str first_match]; now rewrite IH. }
  split.
  - induction keywords as [|kw keywords IH]; [reflexivity|].
    cbn [find_column]; now rewrite Hf, IH.
  - intros c Hc.
    destruct (find_column_some_alias _ _ _ Hc) as (kw & _ & Hm).
    destruct (first_match_some _ _ _ Hm) as (j & Hj & _).
    apply filter_In; split; [eapply nth_error_In; exact Hj|reflexivity].
Qed.

Lemma find_column_skips_non_strings_witness :
  find_column [LInt 0; LStr "Qty"] QTY_BIN_KEYWORDS = Some "Qty" /\
  In (LStr "Qty") (filter is_str [LInt 0; LStr "Qty"]).
Proof.
  split; [reflexivity|].
  apply (proj2 (find_column_skips_non_strings [LInt 0; LStr "Qty"] QTY_BIN_KEYWORDS)).
  reflexivity.
Defined.

Lemma str_in_trans (a b c : string) :
  PyStr.str_in a b = true -> PyStr.str_in b c = true -> PyStr.str_in a c = true.
Proof.
  rewrite !str_in_iff; intros (p1 & q1 & ->) (p2 & q2 & ->).
  exists (p2 ++ p1), (q1 ++ q2).
  now rewrite !append_assoc.
Qed.

Lemma first_match_at_or_before (a : string) (cols : list label) (j : nat)
    (c : string) :
  nth_error cols j = Some (LStr c) ->
  col_matches a (LStr c) = true ->
  exists c' i,
    first_match a cols = Some c' /\ nth_error cols i = Some (LStr c') /\ i <= j.
Proof.
  revert j; induction cols as [|l cols IH]; intros j Hj Hm.
  - destruct j; discriminate.
  - destruct j as [|j]; simpl in Hj.
    + injection Hj as ->; exists c, 0; cbn [first_match].
      rewrite Hm; repeat split; lia.
    + destruct (IH j Hj Hm) as (c' & i & Hf & Hi & Hle).
      destruct l as [s|z]; cbn [first_match].
      * destruct (col_matches a (LStr s)) eqn:Hs.
        -- exists s, 0; repeat split; lia.
        -- exists c', (S i); repeat split; [assumption|assumption|lia].
      * exists c', (S i); repeat split; [assumption|assumption|lia].
Qed.

(** When every alias of a field contains the alias [a], a column resolved
    for the field is also a candidate for [a]. *)
Lemma subsumed_resolution (a : string) (keywords : list string)
    (cols : list label) (c : string) :
  (forall kw, In kw keywords ->
              PyStr.str_in (PyStr.upper a) (PyStr.upper kw) = true) ->
  find_column cols keywords = Some c ->
  exists c' i j,
    find_column cols [a] = Some c' /\
    nth_error cols i = Some (LStr c') /\
    nth_error cols j = Some (LStr c) /\ i <= j.
Proof.
  intros Hsub Hc.
  destruct (find_column_some_alias _ _ _ Hc) as (kw & Hin & Hm).
  destruct (first_match_some _ _ _ Hm) as (j & Hj & Hci & _).
  apply col_matches_iff in Hci.
  assert (col_matches a (LStr c) = true) as Ha
    by (eapply str_in_trans; [apply Hsub; exact Hin|exact Hci]).
  destruct (first_match_at_or_before a cols j c Hj Ha) as (c' & i & Hf & Hi & Hle).
  exists c', i, j; cbn [find_column]; rewrite Hf; auto.
Qed.

Ltac aliases_contain :=
  let kw := fresh "kw" in
  let Hin := fresh "Hin" in
  intros kw Hin; simpl in Hin;
  repeat (destruct Hin as [<-|Hin]; [reflexivity|]);
  contradiction.

(** X4.  The plain fields rack, level and cell are resolved by an alias that
    every alias of the rack digit columns and of the ABB rack, level and
    cell columns contains.  So whenever one of those is resolved, the plain
    field is resolved too, to a column at or before it in the header: a
    header listing the digit column first gives both fields that column. *)
Theorem location_fields_collide (header : list label) (c : string) :
  (rack_no_1st (find_line_location_columns header) = Some c \/
   rack_no_2nd (find_line_location_columns header) = Some c \/
   abb_rack_no (find_store_location_columns header) = Some c ->
   exists c' i j,
     rack (find_line_location_columns header) = Some c' /\
     nth_error header i = Some (LStr c') /\
     nth_error header j = Some (LStr c) /\ i <= j) /\
  (abb_level_in_rack (find_store_location_columns header) = Some c ->
   exists c' i j,
     level (find_line_location_columns header) = Some c' /\
     nth_error header i = Some (LStr c') /\
     nth_error header j = Some (LStr c) /\ i <= j) /\
  (abb_cell (find_store_location_columns header) = Some c ->
   exists c' i j,
     cell_col (find_line_location_columns header) = Some c' /\
     nth_error header i = Some (LStr c') /\
     nth_error header j = Some (LStr c) /\ i <= j).
Proof.
  unfold find_line_location_columns, find_store_location_columns.
  cbn [rack rack_no_1st rack_no_2nd level cell_col abb_rack_no
       abb_level_in_rack abb_cell].
  split; [|split].
  - intros [H|[H|H]];
      (eapply subsumed_resolution; [|exact H]; aliases_contain).
  - intros H; eapply subsumed_resolution; [|exact H]; aliases_contain.
  - intros H; eapply subsumed_resolution; [|exact H]; aliases_contain.
Qed.

Lemma location_fields_collide_witness :
  rack_no_1st (find_line_location_columns rack_digits_header)
    = Some "Rack No. (1st digit)" /\
  exists c' i j,
    rack (find_line_location_columns rack_digits_header) = Some c' /\
    nth_error rack_digits_header i = Some (LStr c') /\
    nth_error rack_digits_header j = Some (LStr "Rack No. (1st digit)") /\
    i <= j.
Proof.
  split; [reflexivity|].
  apply (proj1 (location_fields_collide rack_digits_header "Rack No. (1st digit)")).
  left; reflexivity.
Defined.

Example rack_takes_the_digit_column :
  rack (find_line_location_columns rack_digits_header)
  = Some "Rack No. (1st digit)".
Proof.
  reflexivity.
Qed.

(** ** More on extraction, description and payload *)

(** X5.  A sticker reads the row only through the columns its fields
    resolved to: two rows that agree on those columns give the same record,
    whatever else the table holds. *)
Theorem sticker_reads_only_resolved_columns
    (part_no_col desc_col qty_bin_col : option string)
    (lc : LineCols) (sc : StoreCols) (row row' : Series) :
  (forall c,
      In (Some c)
         ([part_no_col; desc_col; qty_bin_col]
          ++ line_slots lc ++ store_slots sc)%list ->
      getitem row c = getitem row' c) ->
  sticker_record part_no_col desc_col qty_bin_col lc sc row =
  sticker_record part_no_col desc_col qty_bin_col lc sc row'.
Proof.
  intros H; rewrite !sticker_record_eq; unfold record_of.
  assert (forall col,
             In col ([part_no_col; desc_col; qty_bin_col]
                     ++ line_slots lc ++ store_slots sc)%list ->
             slot_text row col = slot_text row' col /\
             basic_text row col = basic_text row' col) as Hcol.
  { intros col Hin; apply slot_text_ext; intros c ->; now apply H. }
  assert (map (slot_text row) (line_slots lc)
          = map (slot_text row') (line_slots lc)) as ->.
  { apply map_ext_in; intros col Hin; apply Hcol.
    apply in_or_app; right; apply in_or_app; now left. }
  assert (map (slot_text row) (store_slots sc)
          = map (slot_text row') (store_slots sc)) as ->.
  { apply map_ext_in; intros col Hin; apply Hcol.
    apply in_or_app; right; apply in_or_app; now right. }
  rewrite (proj2 (Hcol part_no_col (or_introl eq_refl))).
  rewrite (proj2 (Hcol desc_col (or_intror (or_introl eq_refl)))).
  rewrite (proj1 (Hcol qty_bin_col (or_intror (or_intror (or_introl eq_refl))))).
  reflexivity.
Qed.

Lemma sticker_reads_only_resolved_columns_witness :
  getitem note_row_a "NOTE" <> getitem note_row_b "NOTE" /\
  sticker_record (Some "PART NO") None None no_line_cols no_store_cols note_row_a =
  sticker_record (Some "PART NO") None None no_line_cols no_store_cols note_row_b.
Proof.
  split; [discriminate|].
  apply sticker_reads_only_resolved_columns.
  intros c Hin; simpl in Hin.
  repeat (destruct Hin as [Hin|Hin]; [try discriminate|]);
    [injection Hin as <-; reflexivity|contradiction].
Defined.

Lemma string_length_app (a b : string) :
  String.length (a ++ b) = String.length a + String.length b.
Proof.
  induction a as [|c a IH]; simpl; [reflexivity|now rewrite IH].
Qed.

Lemma substring_app_exact (a b : string) :
  String.substring 0 (String.length a) (a ++ b) = a.
Proof.
  induction a as [|c a IH]; simpl; [destruct b; reflexivity|now rewrite IH].
Qed.

(** X6.  The rendered description never exceeds 33 characters, is exactly 33
    long whenever it was cut (so a description of 31 or 32 characters is
    rendered longer than it is), and rendering it again changes nothing. *)
Theorem desc_text_bounded_idempotent (d : string) :
  String.length (desc_text d) <= 33 /\
  (30 < String.length d -> String.length (desc_text d) = 33) /\
  desc_text (desc_text d) = desc_text d.
Proof.
  unfold desc_text at 1 2 4 5.
  destruct (Nat.ltb_spec 30 (String.length d)) as [Hl|Hl].
  - destruct (substring_prefix 30 d) as (tail & _ & Hlen); [lia|].
    assert (String.length (String.substring 0 30 d ++ "...") = 33) as H33
      by (rewrite string_length_app, Hlen; reflexivity).
    split; [lia|]; split; [intros _; exact H33|].
    unfold desc_text; rewrite H33; cbn [Nat.ltb Nat.leb].
    rewrite <- Hlen at 1; now rewrite substring_app_exact.
  - split; [lia|]; split; [lia|].
    unfold desc_text.
    destruct (Nat.ltb_spec 30 (String.length d)); [lia|reflexivity].
Qed.

Lemma desc_text_bounded_idempotent_witness :
  30 < String.length long_desc /\
  String.length (desc_text long_desc) = 33.
Proof.
  split; [simpl; lia|].
  apply (proj1 (proj2 (desc_text_bounded_idempotent long_desc))); simpl; lia.
Defined.

Lemma concat_length (sep : string) (parts : list string) :
  String.length (String.concat sep parts) =
  total_length parts + String.length sep * pred (List.length parts).
Proof.
  induction parts as [|x parts IH]; [simpl; lia|].
  destruct parts as [|y parts].
  - simpl; lia.
  - change (String.concat sep (x :: y :: parts))
      with (x ++ sep ++ String.concat sep (y :: parts)).
    rewrite !string_length_app, IH.
    cbn [total_length fold_right List.length pred]; lia.
Qed.

Lemma qr_payload_length (p d q : string) (line store : list string) :
  String.length (qr_payload p d q line store) =
  66 + String.length p + String.length d + String.length q
  + String.length (String.concat " | " line)
  + String.length (String.concat " | " store).
Proof.
  unfold qr_payload; rewrite !string_length_app.
  cbn [String.length nl]; lia.
Qed.

(** X7.  The payload is 102 characters of labels, newlines and separators
    plus the characters of the fields: it is never empty, and a row without
    any resolved column still gives 102 characters. *)
Theorem qr_data_length (part_no_col desc_col qty_bin_col : option string)
    (lc : LineCols) (sc : StoreCols) (row : Series) :
  exists r,
    sticker_record part_no_col desc_col qty_bin_col lc sc row = Ok r /\
    String.length (qr_data r) =
      102 + String.length (part_no r) + String.length (desc r)
      + String.length (qty_bin r)
      + total_length (line_location_parts r)
      + total_length (store_location_parts r).
Proof.
  rewrite sticker_record_eq; eexists; split; [reflexivity|].
  unfold record_of; cbn [qr_data part_no desc qty_bin line_location_parts
                         store_location_parts].
  rewrite qr_payload_length, !concat_length, !length_map.
  unfold line_slots, store_slots; cbn [List.length pred String.length]; lia.
Qed.

(** ** The story of an arbitrary table *)

Lemma blocks_page_breaks (qr_ok : string -> bool) (header : list label) (n : Z)
    (todo : list (Z * Series)) :
  List.length (filter is_page_break (flat_map (row_block qr_ok header n) todo)) =
  List.length (filter (fun ir => (fst ir <? n - 1)%Z) todo).
Proof.
  induction todo as [|[index row] todo IH]; [reflexivity|].
  cbn [flat_map filter fst]; unfold row_block at 1, page_of; cbn [fst snd].
  destruct (index <? n - 1)%Z; cbn [app filter is_page_break List.length];
    now rewrite IH.
Qed.

Lemma blocks_length (qr_ok : string -> bool) (header : list label) (n : Z)
    (todo : list (Z * Series)) :
  List.length (flat_map (row_block qr_ok header n) todo) =
  2 * List.length todo
  + List.length (filter (fun ir => (fst ir <? n - 1)%Z) todo).
Proof.
  induction todo as [|[index row] todo IH]; [reflexivity|].
  cbn [flat_map filter fst]; unfold row_block at 1, page_of; cbn [fst snd].
  destruct (index <? n - 1)%Z; cbn [app List.length]; rewrite IH; lia.
Qed.

Lemma blocks_breaks_after_tables (qr_ok : string -> bool) (header : list label)
    (n : Z) (todo : list (Z * Series)) :
  breaks_after_tables (flat_map (row_block qr_ok header n) todo) = true.
Proof.
  induction todo as [|[index row] todo IH]; [reflexivity|].
  cbn [flat_map]; unfold row_block at 1, page_of; cbn [fst snd].
  destruct (index <? n - 1)%Z; cbn [app breaks_after_tables]; [exact IH|].
  destruct todo as [|[index' row'] todo]; [reflexivity|].
  cbn [flat_map] in IH |- *; unfold row_block, page_of in IH |- *.
  cbn [app fst snd breaks_after_tables] in IH |- *; exact IH.
Qed.

(** X8.  For any table, whatever its index labels: when [Paragraph] accepts
    its texts, the story has two flowables per row plus one page break for
    every row whose index label is below [len(df) - 1], and a page break
    only ever comes directly after a sticker table; otherwise the loop
    raises [ValueError] and there is no story. *)
Theorem page_breaks_by_index_label (para_ok qr_ok : string -> bool)
    (df : DataFrame) :
  if table_texts_ok para_ok df
  then exists story,
      build_story para_ok qr_ok df = Ok story /\
      List.length (filter is_page_break story) =
        List.length (filter (fun r => (fst r <? len df - 1)%Z) (rows df)) /\
      List.length story =
        2 * List.length (rows df) + List.length (filter is_page_break story) /\
      breaks_after_tables story = true
  else build_story para_ok qr_ok df = Raise ValueError.
Proof.
  rewrite build_story_eq.
  destruct (table_texts_ok para_ok df); [|reflexivity].
  eexists; split; [reflexivity|].
  assert (List.length (filter (fun ir : Z * Series => (fst ir <? len df - 1)%Z)
                         (iterrows df))
          = List.length (filter (fun r : Z * list cell => (fst r <? len df - 1)%Z)
                           (rows df))) as Hcount.
  { unfold iterrows; rewrite filter_map_swap, length_map; reflexivity. }
  split; [now rewrite blocks_page_breaks|].
  split; [|apply blocks_breaks_after_tables].
  now rewrite blocks_length, blocks_page_breaks, iterrows_length.
Qed.

Lemma join_pages_app (pages1 pages2 : list (list Flowable)) :
  pages1 <> [] -> pages2 <> [] ->
  join_pages (pages1 ++ pages2) =
  (join_pages pages1 ++ PageBreak :: join_pages pages2)%list.
Proof.
  intros H1 H2; induction pages1 as [|p pages1 IH]; [contradiction|].
  destruct pages1 as [|p' pages1].
  - destruct pages2 as [|q pages2]; [contradiction|reflexivity].
  - change (join_pages ((p :: p' :: pages1) ++ pages2))
      with (p ++ PageBreak :: join_pages ((p' :: pages1) ++ pages2))%list.
    rewrite IH by discriminate.
    change (join_pages (p :: p' :: pages1))
      with (p ++ PageBreak :: join_pages (p' :: pages1))%list.
    now rewrite <- app_assoc.
Qed.

(** X9.  Loading two non-empty lists of rows under the same header one
    after the other: the combined table gets through the loop exactly when
    both parts do, and its story is then the story of the first, a page
    break, and the story of the second. *)
Theorem story_of_appended_tables (para_ok qr_ok : string -> bool)
    (header : list label) (data1 data2 : list (list cell)) :
  data1 <> [] -> data2 <> [] ->
  table_texts_ok para_ok (read_table header (data1 ++ data2)) =
    table_texts_ok para_ok (read_table header data1)
    && table_texts_ok para_ok (read_table header data2) /\
  (table_texts_ok para_ok (read_table header data1) = true ->
   table_texts_ok para_ok (read_table header data2) = true ->
   exists story1 story2,
     build_story para_ok qr_ok (read_table header data1) = Ok story1 /\
     build_story para_ok qr_ok (read_table header data2) = Ok story2 /\
     build_story para_ok qr_ok (read_table header (data1 ++ data2)) =
       Ok (story1 ++ PageBreak :: story2)%list).
Proof.
  intros H1 H2.
  assert (table_texts_ok para_ok (read_table header (data1 ++ data2)) =
          table_texts_ok para_ok (read_table header data1)
          && table_texts_ok para_ok (read_table header data2)) as Happ
    by (rewrite !table_texts_ok_read_table, map_app; apply forallb_app).
  split; [exact Happ|].
  intros Hok1 Hok2; rewrite !build_story_read_table, Happ, Hok1, Hok2.
  do 2 eexists; split; [reflexivity|]; split; [reflexivity|].
  cbn [andb]; rewrite !map_app, join_pages_app; [reflexivity| |].
  - destruct data1; [contradiction|discriminate].
  - destruct data2; [contradiction|discriminate].
Qed.

Lemma story_of_appended_tables_witness :
  exists story1 story2,
    build_story (always true) (always true)
      (read_table [LStr "PART NO"] [[CStr "A100"]]) = Ok story1 /\
    build_story (always true) (always true)
      (read_table [LStr "PART NO"] [[CStr "A200"]]) = Ok story2 /\
    build_story (always true) (always true)
      (read_table [LStr "PART NO"] ([[CStr "A100"]] ++ [[CStr "A200"]]))
      = Ok (story1 ++ PageBreak :: story2)%list.
Proof.
  apply (proj2 (story_of_appended_tables (always true) (always true)
                  [LStr "PART NO"] [[CStr "A100"]] [[CStr "A200"]]
                  ltac:(discriminate) ltac:(discriminate)));
    reflexivity.
Defined.

(** ** Repeated runs *)

Lemma on_generate_cases (para_ok qr_ok : string -> bool)
    (build_ok : list Flowable -> bool) (df : DataFrame) (w : World) :
  on_generate para_ok qr_ok build_ok df w =
  match build_story para_ok qr_ok df with
  | Ok story =>
      if build_ok story then (Download (Some story), w)
      else (Failed, create_file w (fresh_path w))
  | Raise _ => (ErrorReading, create_file w (fresh_path w))
  end.
Proof.
  unfold on_generate, generate_sticker_labels.
  destruct (build_story para_ok qr_ok df) as [story|e]; [|reflexivity].
  destruct (build_ok story); [|reflexivity].
  unfold write_file, create_file, unlink.
  cbn [tmp_files write_entry read_entry fst filter].
  rewrite Nat.eqb_refl; cbn [tmp_files write_entry read_entry fst filter].
  rewrite Nat.eqb_refl; cbn [negb].
  rewrite unlink_fresh; destruct w; reflexivity.
Qed.

Lemma file_exists_create (w : World) (p q : nat) :
  file_exists (create_file w p) q = Nat.eqb p q || file_exists w q.
Proof.
  reflexivity.
Qed.

Lemma leaking_runs (step : World -> World) (n : nat) :
  (forall w, step w = create_file w (fresh_path w)) ->
  forall w, exists leaked,
    tmp_files (Nat.iter n step w) = (leaked ++ tmp_files w)%list /\
    List.length leaked = n /\
    NoDup (map fst leaked) /\
    Forall (fun f => file_exists w (fst f) = false /\ snd f = None) leaked.
Proof.
  intros Hstep; induction n as [|n IH]; intros w.
  - exists []; repeat split; constructor.
  - rewrite Nat.iter_succ, Hstep.
    destruct (IH w) as (leaked & Hfiles & Hlen & Hnd & Hall).
    set (w1 := Nat.iter n step w) in *.
    exists ((fresh_path w1, None) :: leaked).
    assert (forall f, In f leaked -> fst f <> fresh_path w1) as Hne.
    { intros f Hin Heq.
      pose proof (fresh_path_is_fresh w1) as Hf.
      unfold file_exists in Hf; rewrite Hfiles, existsb_app in Hf.
      apply orb_false_iff in Hf; destruct Hf as [Hf _].
      assert (existsb (fun g => Nat.eqb (fst g) (fresh_path w1)) leaked = true)
        as Ht by (apply existsb_exists; exists f; split;
                  [exact Hin|now apply Nat.eqb_eq]).
      congruence. }
    split; [|split; [|split]].
    + cbn [create_file tmp_files]; now rewrite Hfiles.
    + cbn [List.length]; now rewrite Hlen.
    + cbn [map fst]; constructor; [|exact Hnd].
      intros Hin; apply in_map_iff in Hin; destruct Hin as (f & Hf & Hin).
      now apply (Hne f).
    + constructor; [|exact Hall]; cbn [fst snd]; split; [|reflexivity].
      pose proof (fresh_path_is_fresh w1) as Hf.
      unfold file_exists in Hf |- *; rewrite Hfiles, existsb_app in Hf.
      now apply orb_false_iff in Hf.
Qed.

Lemma repeat_generate_iter (para_ok qr_ok : string -> bool)
    (build_ok : list Flowable -> bool) (df : DataFrame) (n : nat) (w : World) :
  repeat_generate para_ok qr_ok build_ok df n w =
  Nat.iter n (fun w => snd (on_generate para_ok qr_ok build_ok df w)) w.
Proof.
  revert w; induction n as [|n IH]; intros w; [reflexivity|].
  cbn [repeat_generate]; now rewrite IH, Nat.iter_succ_r.
Qed.

(** X10.  Runs compose: when the loop gets through and [doc.build]
    succeeds, any number of runs leaves the temporary files as they were;
    when [doc.build] raises, or the loop itself raises, [n] runs leave [n]
    new files, with distinct names and nothing written to them, beside the
    files that were there. *)
Theorem repeated_runs (para_ok qr_ok : string -> bool)
    (build_ok : list Flowable -> bool) (df : DataFrame) (n : nat) (w : World) :
  if match build_story para_ok qr_ok df with
     | Ok story => build_ok story
     | Raise _ => false
     end
  then repeat_generate para_ok qr_ok build_ok df n w = w
  else exists leaked,
      tmp_files (repeat_generate para_ok qr_ok build_ok df n w)
        = (leaked ++ tmp_files w)%list /\
      List.length leaked = n /\
      NoDup (map fst leaked) /\
      Forall (fun f => file_exists w (fst f) = false /\ snd f = None) leaked.
Proof.
  rewrite repeat_generate_iter.
  destruct (match build_story para_ok qr_ok df with
            | Ok story => build_ok story
            | Raise _ => false
            end) eqn:Hrun.
  - induction n as [|n IH]; [reflexivity|].
    rewrite Nat.iter_succ, IH, on_generate_cases.
    destruct (build_story para_ok qr_ok df); [|discriminate].
    now rewrite Hrun.
  - apply leaking_runs; intros w0; rewrite on_generate_cases.
    destruct (build_story para_ok qr_ok df); [|reflexivity].
    now rewrite Hrun.
Qed.

(** ** Progress and status reporting *)

Lemma sticker_elements_log_eq (para_ok qr_ok : string -> bool)
    (part_no_col desc_col qty_bin_col : option string)
    (lc : LineCols) (sc : StoreCols) (row : Series) :
  sticker_elements_log para_ok qr_ok part_no_col desc_col qty_bin_col lc sc row =
  (if texts_ok para_ok (record_of part_no_col desc_col qty_bin_col lc sc row)
   then Ok [Spacer;
            FinalTable (sticker_of qr_ok
                          (record_of part_no_col desc_col qty_bin_col lc sc row))]
   else Raise ValueError,
   if qr_ok (qr_data (record_of part_no_col desc_col qty_bin_col lc sc row))
   then [] else [EvQRError]).
Proof.
  unfold sticker_elements_log; rewrite sticker_record_eq.
  unfold texts_ok, paragraph, sticker_of, generate_qr_code_log.
  destruct (qr_ok _);
    (destruct (para_ok (part_no _)); cbn [bind andb]; [|reflexivity];
     destruct (para_ok (desc_text _)); cbn [bind andb]; [|reflexivity];
     destruct (para_ok (qty_bin _)); reflexivity).
Qed.

Ltac flatten_lists :=
  rewrite ?app_nil_r; repeat rewrite <- app_assoc; cbn [app];
  rewrite ?app_nil_r; reflexivity.

Lemma process_rows_log_eq (para_ok qr_ok : string -> bool) (pb sc : bool)
    (header : list label) (n : Z) (todo : list (Z * Series))
    (acc : list Flowable) (log : list Event) :
  process_rows_log para_ok qr_ok pb sc (find_column header PART_NO_KEYWORDS)
    (find_column header DESC_KEYWORDS) (find_column header QTY_BIN_KEYWORDS)
    (find_line_location_columns header) (find_store_location_columns header)
    n todo acc log =
  (match loop_error para_ok pb header n todo with
   | None => Ok (acc ++ flat_map (row_block qr_ok header n) todo)%list
   | Some e => Raise e
   end,
   (log ++ loop_events para_ok qr_ok pb sc header n todo)%list).
Proof.
  revert acc log; induction todo as [|[index row] todo IH]; intros acc log.
  - simpl; now rewrite !app_nil_r.
  - cbn [process_rows_log loop_error loop_events flat_map].
    rewrite sticker_elements_log_eq; fold (row_texts_ok para_ok header row).
    unfold progress_refused, progress, row_events; cbn [fst snd]; cbv zeta.
    destruct pb; cbn [andb bind negb];
      [destruct ((0 <=? index + 1) && (index + 1 <=? n))%Z; cbn [negb bind];
       [|now rewrite app_nil_r]|];
      (destruct (row_texts_ok para_ok header row);
       [rewrite IH; f_equal;
        [destruct (loop_error _ _ header n todo); [reflexivity|];
         unfold row_block, page_of; cbn [fst snd];
         destruct (index <? n - 1)%Z; f_equal; flatten_lists
        |destruct sc, (qr_ok _); flatten_lists]
       |f_equal; destruct sc, (qr_ok _); flatten_lists]).
Qed.

Lemma generate_sticker_labels_log_eq (para_ok qr_ok : string -> bool)
    (build_ok : list Flowable -> bool) (pb sc : bool) (df : DataFrame) (w : World) :
  generate_sticker_labels_log para_ok qr_ok build_ok pb sc df w =
  let story := flat_map (row_block qr_ok (columns df) (len df)) (iterrows df) in
  let body :=
    (report_columns sc (find_column (columns df) PART_NO_KEYWORDS)
       (find_column (columns df) DESC_KEYWORDS)
       (find_column (columns df) QTY_BIN_KEYWORDS)
       (find_line_location_columns (columns df))
       (find_store_location_columns (columns df))
     ++ loop_events para_ok qr_ok pb sc (columns df) (len df) (iterrows df))%list in
  match loop_error para_ok pb (columns df) (len df) (iterrows df) with
  | Some e => (Raise e, create_file w (fresh_path w), body)
  | None =>
      if build_ok story
      then (Ok (Some (fresh_path w)),
            write_file (create_file w (fresh_path w)) (fresh_path w) story,
            if sc then (body ++ [EvSuccess "PDF generated successfully!"])%list
            else body)
      else (Ok None, create_file w (fresh_path w),
            if sc then (body ++ [EvBuildError])%list else body)
  end.
Proof.
  unfold generate_sticker_labels_log; rewrite process_rows_log_eq.
  cbn [app]; destruct (loop_error _ _ _ _ _); [reflexivity|].
  destruct (build_ok _); reflexivity.
Qed.

Lemma loop_error_no_bar (para_ok : string -> bool) (header : list label) (n : Z)
    (todo : list (Z * Series)) :
  loop_error para_ok false header n todo =
  if forallb (fun ir => row_texts_ok para_ok header (snd ir)) todo
  then None else Some ValueError.
Proof.
  induction todo as [|ir todo IH]; [reflexivity|].
  cbn [loop_error forallb progress_refused andb].
  destruct (row_texts_ok para_ok header (snd ir)); [exact IH|reflexivity].
Qed.

(** With the default index the bar is never refused. *)
Lemma not_refused_default_index (pb : bool) (header : list label) (n : Z)
    (data : list (list cell)) (k : Z) :
  (-1 <= k)%Z -> (k + Z.of_nat (List.length data) <= n)%Z ->
  Forall (fun ir => progress_refused pb n ir = false)
    (map (fun r => (fst r, combine header (snd r))) (number_from k data)).
Proof.
  revert k; induction data as [|r data IH]; intros k Hk Hn; [constructor|].
  cbn [number_from map List.length] in *; constructor.
  - unfold progress_refused; cbn [fst].
    destruct pb; [|reflexivity]; cbn [andb].
    apply negb_false_iff, andb_true_iff; split;
      [apply Z.leb_le|apply Z.leb_le]; lia.
  - apply IH; lia.
Qed.

Lemma loop_error_not_refused (para_ok : string -> bool) (pb : bool)
    (header : list label) (n : Z) (todo : list (Z * Series)) :
  Forall (fun ir => progress_refused pb n ir = false) todo ->
  loop_error para_ok pb header n todo = loop_error para_ok false header n todo.
Proof.
  induction 1 as [|ir todo Hir _ IH]; [reflexivity|].
  cbn [loop_error]; rewrite Hir, IH; reflexivity.
Qed.

Lemma generate_sticker_labels_eq (para_ok qr_ok : string -> bool)
    (build_ok : list Flowable -> bool) (df : DataFrame) (w : World) :
  generate_sticker_labels para_ok qr_ok build_ok df w =
  match loop_error para_ok false (columns df) (len df) (iterrows df) with
  | Some e => (Raise e, create_file w (fresh_path w))
  | None =>
      if build_ok (flat_map (row_block qr_ok (columns df) (len df)) (iterrows df))
      then (Ok (Some (fresh_path w)),
            write_file (create_file w (fresh_path w)) (fresh_path w)
              (flat_map (row_block qr_ok (columns df) (len df)) (iterrows df)))
      else (Ok None, create_file w (fresh_path w))
  end.
Proof.
  unfold generate_sticker_labels; rewrite build_story_eq, loop_error_no_bar.
  unfold table_texts_ok; destruct (forallb _ _); reflexivity.
Qed.

(** X11.  The collaborators do not change what is generated, as long as the
    bar accepts its values: for a table as the loaders deliver it, with or
    without bar and container, and for any table when no bar is passed, the
    returned path and the temporary files are those of the run without
    collaborators. *)
Theorem reporting_is_transparent (para_ok qr_ok : string -> bool)
    (build_ok : list Flowable -> bool) (progress_bar status_container : bool)
    (header : list label) (data : list (list cell)) (w : World) :
  fst (generate_sticker_labels_log para_ok qr_ok build_ok progress_bar
         status_container (read_table header data) w)
    = generate_sticker_labels para_ok qr_ok build_ok (read_table header data) w /\
  forall df,
    fst (generate_sticker_labels_log para_ok qr_ok build_ok false
           status_container df w)
    = generate_sticker_labels para_ok qr_ok build_ok df w.
Proof.
  split; [|intros df]; rewrite generate_sticker_labels_log_eq,
                         generate_sticker_labels_eq; cbv zeta.
  - rewrite (loop_error_not_refused para_ok progress_bar).
    + destruct (loop_error _ _ _ _ _); [reflexivity|].
      destruct (build_ok _); reflexivity.
    + unfold read_table, iterrows, len; cbn [columns rows].
      rewrite number_from_length; apply not_refused_default_index; lia.
  - destruct (loop_error _ _ _ _ _); [reflexivity|].
    destruct (build_ok _); reflexivity.
Qed.

(** With other index labels the bar makes a difference: it refuses the
    value 6/2 of the first row, and the function raises. *)
Example bar_refuses_relabelled_table :
  fst (fst (generate_sticker_labels_log (always true) (always true)
              (fun _ => true) true false relabelled_table empty_world))
    = Raise StreamlitAPIException /\
  fst (generate_sticker_labels (always true) (always true) (fun _ => true)
         relabelled_table empty_world) = Ok (Some 1).
Proof.
  split; reflexivity.
Qed.






Lemma quiet_loop (para_ok qr_ok : string -> bool) (header : list label) (n : Z)
    (todo : list (Z * Series)) :
  Forall (fun e => is_qr_error e = true)
    (loop_events para_ok qr_ok false false header n todo) /\
  (forallb (fun ir => row_texts_ok para_ok header (snd ir)) todo = true ->
   loop_events para_ok qr_ok false false header n todo =
   repeat EvQRError
     (List.length
        (filter (fun ir =>
                   match row_record header (snd ir) with
                   | Ok r => negb (qr_ok (qr_data r))
                   | Raise _ => false
                   end) todo))).
Proof.
  induction todo as [|ir todo [IH1 IH2]]; [split; [constructor|reflexivity]|].
  cbn [loop_events forallb filter progress_refused andb].
  rewrite row_record_eq; unfold row_events; cbn [app].
  destruct (row_texts_ok para_ok header (snd ir)); cbn [andb].
  - split.
    + destruct (qr_ok _); cbn [app]; [exact IH1|constructor; [reflexivity|exact IH1]].
    + intros H; rewrite (IH2 H); destruct (qr_ok _); reflexivity.
  - split; [|discriminate].
    destruct (qr_ok _); cbn [app]; repeat constructor.
Qed.

(** X13.  Without collaborators the function reports nothing but QR
    failures; when the loop gets through, that is one error message for
    every row whose payload the encoder rejects, and nothing at all when
    every payload is encoded. *)
Theorem quiet_without_collaborators (para_ok qr_ok : string -> bool)
    (build_ok : list Flowable -> bool) (df : DataFrame) (w : World) :
  Forall (fun e => is_qr_error e = true)
    (snd (generate_sticker_labels_log para_ok qr_ok build_ok false false df w)) /\
  (table_texts_ok para_ok df = true ->
   snd (generate_sticker_labels_log para_ok qr_ok build_ok false false df w) =
   repeat EvQRError (List.length (qr_rejected qr_ok df))).
Proof.
  rewrite generate_sticker_labels_log_eq; cbv zeta.
  destruct (quiet_loop para_ok qr_ok (columns df) (len df) (iterrows df))
    as [H1 H2].
  unfold qr_rejected, report_columns, table_texts_ok; cbn [app].
  destruct (loop_error _ _ _ _ _); [|destruct (build_ok _)]; cbn [snd];
    split; assumption.
Qed.




(** ** The upload handler *)

Lemma str_endswith_unfold (s suffix : string) :
  str_endswith s suffix =
  if String.eqb s suffix then true
  else match s with
       | EmptyString => false
       | String _ s' => str_endswith s' suffix
       end.
Proof.
  destruct s; reflexivity.
Qed.

Lemma str_endswith_iff (s suffix : string) :
  str_endswith s suffix = true <-> exists pre, s = pre ++ suffix.
Proof.
  induction s as [|c s IH]; rewrite str_endswith_unfold.
  - destruct (String.eqb_spec EmptyString suffix) as [<-|Hne].
    + split; [intros _; now exists EmptyString|reflexivity].
    + split; [discriminate|].
      intros [pre H]; destruct pre; [|discriminate].
      simpl in H; congruence.
  - destruct (String.eqb_spec (String c s) suffix) as [<-|Hne].
    + split; [intros _; now exists EmptyString|reflexivity].
    + rewrite IH; split.
      * intros [pre ->]; now exists (String c pre).
      * intros [pre H]; destruct pre as [|d pre]; simpl in H.
        -- congruence.
        -- injection H as _ H; now exists pre.
Qed.

Lemma lower_app (a b : string) :
  str_lower (a ++ b) = str_lower a ++ str_lower b.
Proof.
  induction a as [|c a IH]; simpl; [reflexivity|now rewrite IH].
Qed.

Lemma lower_split (s x y : string) :
  str_lower s = x ++ y ->
  exists s1 s2, s = s1 ++ s2 /\ str_lower s1 = x /\ str_lower s2 = y.
Proof.
  revert s; induction x as [|c x IH]; intros s H.
  - exists EmptyString, s; auto.
  - destruct s as [|d s]; [discriminate|].
    simpl in H; injection H as Hc Hs.
    destruct (IH s Hs) as (s1 & s2 & Hs12 & H1 & H2).
    exists (String d s1), s2; simpl.
    rewrite Hs12, Hc, H1; auto.
Qed.

(** X15.  The CSV loader is chosen exactly for the names that end in the
    extension csv in any mix of upper and lower case; every other name,
    with or without an extension, goes to the spreadsheet loader. *)
Theorem csv_loader_by_extension (name : string) :
  (choose_loader name = ReadCsv <->
   exists stem ext, name = stem ++ ext /\ str_lower ext = ".csv") /\
  (choose_loader name = ReadExcel <->
   ~ exists stem ext, name = stem ++ ext /\ str_lower ext = ".csv").
Proof.
  assert (str_endswith (str_lower name) ".csv" = true <->
          exists stem ext, name = stem ++ ext /\ str_lower ext = ".csv") as H.
  { rewrite str_endswith_iff; split.
    - intros [pre Hp]; apply lower_split in Hp.
      destruct Hp as (s1 & s2 & -> & _ & H2); now exists s1, s2.
    - intros (stem & ext & -> & He); exists (str_lower stem).
      now rewrite lower_app, He. }
  unfold choose_loader.
  destruct (str_endswith (str_lower name) ".csv").
  - split; split; try discriminate; try reflexivity.
    + intros _; now apply H.
    + intros Hn; exfalso; apply Hn; now apply H.
  - split; split; try discriminate; try reflexivity.
    + intros He; apply H in He; discriminate.
    + intros _ He; apply H in He; discriminate.
Qed.

Lemma csv_loader_by_extension_witness :
  choose_loader "Parts.CSV" = ReadCsv /\
  choose_loader "parts.csv.xlsx" = ReadExcel /\
  exists stem ext, "Parts.CSV" = stem ++ ext /\ str_lower ext = ".csv".
Proof.
  split; [reflexivity|]; split; [reflexivity|].
  apply (proj1 (proj1 (csv_loader_by_extension "Parts.CSV"))); reflexivity.
Defined.

Lemma str_split_head (s : string) :
  exists part parts rest,
    str_split "."%char s = part :: parts /\
    s = part ++ rest /\
    (forall pre post, part <> pre ++ String "."%char post) /\
    (rest = EmptyString \/ exists r, rest = String "."%char r).
Proof.
  induction s as [|c s (part & parts & rest & Hs & Hp & Hnd & Hr)].
  - exists EmptyString, [], EmptyString; repeat split; auto.
    intros pre post H; destruct pre; discriminate.
  - cbn [str_split]; destruct (Ascii.eqb_spec c "."%char) as [->|Hc].
    + exists EmptyString, (str_split "."%char s), (String "."%char s).
      repeat split; [|right; now exists s].
      intros pre post H; destruct pre; discriminate.
    + rewrite Hs; exists (String c part), parts, rest.
      repeat split; [simpl; now rewrite <- Hp| |exact Hr].
      intros pre post H; destruct pre as [|d pre]; simpl in H.
      * injection H as Hcd _; contradiction.
      * injection H as _ H; now apply (Hnd pre post).
Qed.

Lemma download_file_name_stem_aux (name : string) :
  exists file_name, download_file_name name = Ok file_name.
Proof.
  destruct (str_split_head name) as (part & parts & rest & Hs & _).
  unfold download_file_name; rewrite Hs; now eexists.
Qed.

(** X16.  The download name is always built, from the part of the upload
    name before its first dot: the name splits into a dot-free stem and a
    rest that is empty or starts with a dot, and the stem gets the fixed
    suffix.  Everything from the first dot on is dropped. *)
Theorem download_file_name_stem (name : string) :
  exists stem rest,
    name = stem ++ rest /\
    (forall pre post, stem <> pre ++ String "."%char post) /\
    (rest = EmptyString \/ exists r, rest = String "."%char r) /\
    download_file_name name = Ok (stem ++ "_tote_labels.pdf").
Proof.
  destruct (str_split_head name) as (part & parts & rest & Hs & Hp & Hnd & Hr).
  exists part, rest; unfold download_file_name; rewrite Hs; auto.
Qed.

Example download_file_name_drops_later_parts :
  download_file_name "parts.v2.xlsx" = Ok "parts_tote_labels.pdf" /\
  download_file_name ".hidden.csv" = Ok "_tote_labels.pdf" /\
  download_file_name "inventory" = Ok "inventory_tote_labels.pdf".
Proof.
  repeat split.
Qed.

Lemma str_items_all_str (cols : list label) :
  (forallb is_str cols = true -> exists names, str_items cols = Some names) /\
  (forallb is_str cols = false -> str_items cols = None).
Proof.
  induction cols as [|[s|z] cols [IH1 IH2]]; cbn [forallb is_str str_items andb].
  - split; [now exists []|discriminate].
  - split.
    + intros H; destruct (IH1 H) as [names ->]; now eexists.
    + intros H; now rewrite (IH2 H).
  - split; [discriminate|reflexivity].
Qed.

(** X17.  A table with a column label that is not a string never reaches
    generation: building the preview line of the column names fails, the
    handler ends with the error message, and no temporary file is made,
    whether or not the button was pressed. *)
Theorem non_string_label_stops_main (para_ok qr_ok : string -> bool)
    (build_ok : list Flowable -> bool)
    (read_csv read_excel : string -> option (list label * list (list cell)))
    (name content : string) (clicked : bool) (w : World)
    (header : list label) (data : list (list cell)) :
  match choose_loader name with
  | ReadCsv => read_csv content
  | ReadExcel => read_excel content
  end = Some (header, data) ->
  forallb is_str header = false ->
  main_upload para_ok qr_ok build_ok read_csv read_excel name content clicked w =
  (ShownError, w).
Proof.
  intros Hl Hs; unfold main_upload; rewrite Hl.
  unfold columns_line, read_table; cbn [columns].
  now rewrite (proj2 (str_items_all_str header) Hs).
Qed.

Lemma non_string_label_stops_main_witness :
  main_upload (always true) (always true) (fun _ => true)
    numbered_header_loader failing_loader
    "stock.csv" EmptyString true empty_world = (ShownError, empty_world).
Proof.
  apply (non_string_label_stops_main (always true) (always true) (fun _ => true)
           numbered_header_loader failing_loader "stock.csv" EmptyString true
           empty_world [LStr "PART NO"; LInt 2024] [[CStr "A100"; CInt 5]]);
    reflexivity.
Defined.

Lemma columns_line_some (header : list label) (data : list (list cell))
    (line : string) :
  columns_line (read_table header data) = Some line ->
  forallb is_str header = true.
Proof.
  unfold columns_line, read_table; cbn [columns]; intros H.
  destruct (forallb is_str header) eqn:Hs; [reflexivity|].
  now rewrite (proj2 (str_items_all_str header) Hs) in H.
Qed.

Lemma columns_line_none (header : list label) (data : list (list cell)) :
  columns_line (read_table header data) = None ->
  forallb is_str header = false.
Proof.
  unfold columns_line, read_table; cbn [columns]; intros H.
  destruct (forallb is_str header) eqn:Hs; [|reflexivity].
  destruct (proj1 (str_items_all_str header) Hs) as [names Hn].
  now rewrite Hn in H.
Qed.

(** X18.  What the handler leaves behind, for every upload.  When a
    document is offered, the table loaded with string labels only, the
    document is the story of that table with one page per row, the name is
    the download name, and the temporary files are as before.  When
    generation is reported as failed, exactly the file of the run has been
    added.  When the handler ends with the error message, either nothing
    was generated (the loader failed or a label is not a string) and the
    temporary files are untouched, or the loop raised on a text and the
    file of the run has been added.  Without a click nothing changes. *)
Theorem main_upload_outcomes (para_ok qr_ok : string -> bool)
    (build_ok : list Flowable -> bool)
    (read_csv read_excel : string -> option (list label * list (list cell)))
    (name content : string) (clicked : bool) (w : World) :
  match main_upload para_ok qr_ok build_ok read_csv read_excel name content
          clicked w with
  | (ShownPreview _ _ (Some (Offered pdf_data file_name)), w') =>
      w' = w /\ clicked = true /\
      download_file_name name = Ok file_name /\
      exists header data story,
        match choose_loader name with
        | ReadCsv => read_csv content
        | ReadExcel => read_excel content
        end = Some (header, data) /\
        forallb is_str header = true /\
        build_story para_ok qr_ok (read_table header data) = Ok story /\
        build_ok story = true /\
        pdf_data = Some story /\
        List.length (paginate story) = List.length data
  | (ShownPreview _ _ (Some NotGenerated), w') =>
      clicked = true /\ w' = create_file w (fresh_path w)
  | (ShownPreview _ _ None, w') => clicked = false /\ w' = w
  | (ShownError, w') =>
      (w' = w /\
       (match choose_loader name with
        | ReadCsv => read_csv content
        | ReadExcel => read_excel content
        end = None \/
        exists header data,
          match choose_loader name with
          | ReadCsv => read_csv content
          | ReadExcel => read_excel content
          end = Some (header, data) /\
          forallb is_str header = false)) \/
      (clicked = true /\ w' = create_file w (fresh_path w) /\
       exists header data,
         match choose_loader name with
         | ReadCsv => read_csv content
         | ReadExcel => read_excel content
         end = Some (header, data) /\
         build_story para_ok qr_ok (read_table header data) = Raise ValueError)
  end.
Proof.
  unfold main_upload.
  destruct (match choose_loader name with
            | ReadCsv => read_csv content
            | ReadExcel => read_excel content
            end) as [[header data]|] eqn:Hl; [|left; auto].
  destruct (columns_line (read_table header data)) as [line|] eqn:Hc.
  2:{ left; split; [reflexivity|]; right; exists header, data.
      split; [reflexivity|eapply columns_line_none; exact Hc]. }
  destruct clicked; [|split; reflexivity].
  rewrite on_generate_cases, build_story_read_table.
  pose proof (build_story_read_table para_ok qr_ok header data) as Hstory.
  destruct (table_texts_ok para_ok (read_table header data)).
  2:{ right; split; [reflexivity|]; split; [reflexivity|].
      exists header, data; auto. }
  destruct (build_ok _) eqn:Hb; [|split; reflexivity].
  destruct (download_file_name_stem_aux name) as [fn Hfn]; rewrite Hfn.
  split; [reflexivity|]; split; [reflexivity|]; split; [reflexivity|].
  exists header, data; eexists.
  split; [reflexivity|]; split; [eapply columns_line_some; exact Hc|].
  split; [exact Hstory|]; split; [exact Hb|]; split; [reflexivity|].
  rewrite paginate_join_pages by apply pages_well_formed.
  now rewrite !length_map.
Qed.
